(** * Tool selection and presentation tools of the assistant

    A shallow embedding of

    - [src/server/actions/orchestrator.ts]: [getToolsFromOrchestrator], the
      post-processing of the classifier's candidate tool names;
    - [src/ai/generic/telegram.tsx] and the bundle tools that follow it: the
      [execute] operations of [verifyTelegramSetup],
      [sendTelegramNotification] and [analyzeBundles].

    Awaited calls are modelled by their completion: a value or a thrown
    value.  The external calls ([generateObject], the server actions) are
    parameters of the code that uses them. *)

From Stdlib Require Import PrimFloat.
From stdpp Require Import base list strings gmap.

Local Open Scope string_scope.
Local Open Scope list_scope.
Local Open Scope stdpp_scope.

(** ** Completions: the outcome of evaluating (and awaiting) an expression *)

Inductive completion (E A : Type) : Type :=
| Returned (a : A)
| Thrown (e : E).

Arguments Returned {E A} a.
Arguments Thrown {E A} e.

Definition bind {E A B : Type}
    (c : completion E A) (k : A → completion E B) : completion E B :=
  match c with
  | Returned a => k a
  | Thrown e => Thrown e
  end.

(** [try { body } catch (err) { handler }] *)
Definition try_catch {E A : Type}
    (body : completion E A) (handler : E → completion E A) : completion E A :=
  match body with
  | Returned a => Returned a
  | Thrown e => handler e
  end.

Notation "'let!' x ':=' c 'in' k" := (bind c (fun x => k))
  (at level 10, x name, c at level 100, k at level 200, only parsing).

(** ** The JavaScript [Set] of strings, as far as the selector uses it

    A [Set] keeps its elements in insertion order and compares strings by
    value; [new Set(iterable)] adds the elements one after the other and
    [[...set]] lists them in insertion order. *)

Module JsSet.

Definition t : Type := list string.

Definition empty : t := [].

Definition has (s : t) (x : string) : bool := existsb (String.eqb x) s.

Definition add (s : t) (x : string) : t :=
  if has s x then s else s ++ [x].

Definition add_all (s : t) (l : list string) : t := fold_left add l s.

(** [new Set(l)] *)
Definition from_iterable (l : list string) : t := add_all empty l.

(** [[...s]] *)
Definition spread (s : t) : list string := s.

End JsSet.

(** ** [getToolsFromOrchestrator] *)

(** Truthiness of a [string | undefined]: [undefined] and the empty string
    are falsy. *)
Definition string_truthy (s : string) : bool :=
  negb (Nat.eqb (String.length s) 0).

Definition opt_string_truthy (s : option string) : bool :=
  match s with
  | None => false
  | Some s => string_truthy s
  end.

(** Lines 30-32: the tools added whatever the classifier said. *)
Definition confirmationTools (confirmationResultMessage : option string)
    : list string :=
  if opt_string_truthy confirmationResultMessage
  then ["searchToken"]
  else ["searchToken"; "askForConfirmation"].

(** Lines 30-37: the [else] branch, from the candidates to the returned
    array. *)
Definition augment (confirmationResultMessage : option string)
    (toolsRequired : list string) : list string :=
  let confirmationTools := confirmationTools confirmationResultMessage in
  let allTools := JsSet.from_iterable (confirmationTools ++ toolsRequired) in
  JsSet.spread allTools.

Section Orchestrator.

(** [Message] and [LanguageModelUsage] come from the [ai] package; the
    selector passes them on without looking inside.  [Err] is whatever
    [generateObject] may throw. *)
Context {Message LanguageModelUsage Err : Type}.

(** The part of [generateObject]'s result that is destructured. *)
Record GenerateObjectResult : Type := mkGenerated {
  object : list string;
  object_usage : LanguageModelUsage
}.

Record OrchestratorResult : Type := mkResult {
  usage : LanguageModelUsage;
  toolsRequired : option (list string)
}.

(** The external classification call, applied to the conversation. *)
Variable generateObject :
  option (list Message) → completion Err GenerateObjectResult.

Definition getToolsFromOrchestrator
    (messages : option (list Message))
    (confirmationResultMessage : option string)
    : completion Err OrchestratorResult :=
  let! r := generateObject messages in
  let toolsRequired := object r in
  let usage := object_usage r in
  if Nat.eqb (length toolsRequired) 0 then
    Returned {| usage := usage; toolsRequired := None |}
  else
    Returned {| usage := usage;
                toolsRequired :=
                  Some (augment confirmationResultMessage toolsRequired) |}.

End Orchestrator.

Arguments GenerateObjectResult : clear implicits.
Arguments OrchestratorResult : clear implicits.
Arguments mkGenerated {LanguageModelUsage} _ _.
Arguments mkResult {LanguageModelUsage} _ _.

(** ** JavaScript values, as far as the tools observe them

    The server actions are untyped from here: whatever they resolve to is a
    value, and so is whatever they throw.  An [Error] instance carries its
    [message]; the other objects are their own properties. *)

#[warnings="-register-all"]
Inductive value : Type :=
| VUndefined
| VNull
| VBool (b : bool)
| VNumber (n : float)
| VString (s : string)
| VObject (fields : list (string * value))
| VError (message : string).

Module Js.

(** ToBoolean *)
Definition truthy (v : value) : bool :=
  match v with
  | VUndefined | VNull => false
  | VBool b => b
  | VNumber n => negb (PrimFloat.is_zero n || PrimFloat.is_nan n)
  | VString s => string_truthy s
  | VObject _ | VError _ => true
  end.

Definition nullish (v : value) : bool :=
  match v with
  | VUndefined | VNull => true
  | _ => false
  end.

Fixpoint field (fields : list (string * value)) (k : string) : value :=
  match fields with
  | [] => VUndefined
  | (k', v) :: rest => if String.eqb k k' then v else field rest k
  end.

(** [a || b], both operands already evaluated ([b] has no effect here) *)
Definition or (a b : value) : value := if truthy a then a else b.

(** [err instanceof Error] *)
Definition instanceof_Error (v : value) : bool :=
  match v with
  | VError _ => true
  | _ => false
  end.

Definition of_opt_string (s : option string) : value :=
  match s with
  | None => VUndefined
  | Some s => VString s
  end.

Section Access.

(** The engine's text for the [TypeError] of reading property [k] of
    [undefined] or [null]. *)
Variable type_error_message : value → string → string.

(** [v.k]; the primitives' wrappers hold none of the property names read
    in this file. *)
Definition get (v : value) (k : string) : completion value value :=
  match v with
  | VUndefined | VNull => Thrown (VError (type_error_message v k))
  | VObject fields => Returned (field fields k)
  | VError message =>
      Returned (if String.eqb k "message" then VString message
                else VUndefined)
  | VBool _ | VNumber _ | VString _ => Returned VUndefined
  end.

(** [v?.k] *)
Definition get_opt (v : value) (k : string) : completion value value :=
  if nullish v then Returned VUndefined else get v k.

(** The [catch] clause the three tools share in shape:
    [{ success: false,
       error: err instanceof Error ? err.message : fallback }]. *)
Definition catch_result (fallback : string) (err : value)
    : completion value value :=
  let! error :=
    (if instanceof_Error err then get err "message"
     else Returned (VString fallback)) in
  Returned (VObject [("success", VBool false); ("error", error)]).

End Access.

End Js.

(** The record [{ success: false, error: msg }] with a string [msg]: what a
    tool hands to its renderer when it failed. *)
Definition failure_record (msg : string) : value :=
  VObject [("success", VBool false); ("error", VString msg)].

(** ** The [execute] operations of the Telegram tools *)

Module telegramTools.

Section Execute.

Variable type_error_message : value → string → string.

(** Imported from [@/server/actions/telegram]. *)
Variable MISSING_USERNAME_ERROR : string.
Variable verifyTelegramSetupAction : value → completion value value.
Variable checkTelegramUsername : value → completion value value.
Variable sendTelegramNotification : value → completion value value.

#[local] Abbreviation get := (Js.get type_error_message).
#[local] Abbreviation get_opt := (Js.get_opt type_error_message).

(** Lines 105-116: the [try] block of [verifyTelegramSetup.execute]. *)
Definition verifyTelegramSetup_try (username : option string)
    : completion value value :=
  let! response :=
    verifyTelegramSetupAction
      (VObject [("username", Js.of_opt_string username)]) in
  let! d := get_opt response "data" in
  let! dd := get_opt d "data" in
  if negb (Js.truthy dd) then
    Returned (VObject [("success", VBool false);
                       ("error", VString "No response from Telegram action")])
  else
    let! d1 := get response "data" in
    let! success := get d1 "success" in
    if negb (Js.truthy success) then
      let! d2 := get response "data" in
      let! error := get d2 "error" in
      let! d3 := get response "data" in
      let! d3d := get d3 "data" in
      let! botId := get_opt d3d "botId" in
      Returned (VObject [("success", VBool false); ("error", error);
                         ("botId", botId)])
    else
      Returned (VObject [("success", VBool true);
                         ("data", VString "Telegram setup verified")]).

Definition verifyTelegramSetup_execute (username : option string)
    : completion value value :=
  try_catch (verifyTelegramSetup_try username)
            (Js.catch_result type_error_message "Verification failed").

(** Lines 155-179: the [try] block of [sendTelegramNotification.execute];
    [this] is the receiver of the call. *)
Definition sendTelegramNotification_try (this : value)
    (username : option string) (message : string)
    : completion value value :=
  let! userId := get this "userId" in
  let! usernameCheck := checkTelegramUsername (Js.or userId VUndefined) in
  let! missing :=
    (if negb (opt_string_truthy username) then
       let! saved := get usernameCheck "username" in
       Returned (negb (Js.truthy saved))
     else Returned false) in
  if (missing : bool) then
    Returned (VObject [("success", VBool false);
                       ("error", VString MISSING_USERNAME_ERROR)])
  else
    let! finalUsername :=
      (if opt_string_truthy username
       then Returned (Js.of_opt_string username)
       else get usernameCheck "username") in
    let! userId' := get this "userId" in
    let! response :=
      sendTelegramNotification
        (VObject [("username", finalUsername);
                  ("userId", Js.or userId' VUndefined);
                  ("text", VString message)]) in
    let! d := get_opt response "data" in
    let! dd := get_opt d "data" in
    if negb (Js.truthy dd) then
      Returned (VObject [("success", VBool false);
                         ("error",
                          VString "No response from Telegram action")])
    else
      let! d1 := get response "data" in
      let! d1d := get d1 "data" in
      let! success := get d1d "success" in
      let! error := get d1d "error" in
      let! botId := get d1d "botId" in
      if negb (Js.truthy success) then
        Returned (VObject [("success", success); ("error", error);
                           ("botId", botId)])
      else
        Returned (VObject [("success", VBool true);
                           ("data", VString "Notification sent successfully");
                           ("noFollowUp", VBool true);
                           ("botId", botId)]).

Definition sendTelegramNotification_execute (this : value)
    (username : option string) (message : string)
    : completion value value :=
  try_catch (sendTelegramNotification_try this username message)
            (Js.catch_result type_error_message "Failed to send notification").

End Execute.

End telegramTools.

(** ** The [execute] operation of the bundle tool *)

Module bundleTools.

Section Execute.

Variable type_error_message : value → string → string.

(** Imported from [@/server/actions/bundle]. *)
Variable analyzeMintBundles : value → completion value value.

(** Lines 219-234: the [try] block of [analyzeBundles.execute]. *)
Definition analyzeBundles_try (mintAddress : string)
    : completion value value :=
  let! analysis :=
    analyzeMintBundles
      (VObject [("mintAddress", VString mintAddress);
                ("minSlotTransactions", VNumber 2%float)]) in
  if negb (Js.truthy analysis) then
    Returned (VObject [("success", VBool false);
                       ("error", VString "Failed to analyze bundles")])
  else
    Returned (VObject [("success", VBool true); ("data", analysis)]).

Definition analyzeBundles_execute (mintAddress : string)
    : completion value value :=
  try_catch (analyzeBundles_try mintAddress)
            (Js.catch_result type_error_message "Failed to analyze bundles").

End Execute.

End bundleTools.

(** ** Rendering: the elements the tools' [render] operations build

    A JSX expression builds an element: its type, its string-valued props
    and its children.  A child is literal text, an embedded expression
    (kept as the value it evaluated to) or another element. *)

#[warnings="-register-all"]
Inductive jsx : Type :=
| JsxText (text : string)
| JsxExpr (v : value)
| JsxElement (type : string) (props : list (string * string))
    (children : list jsx).

Module Render.

(** [v === s] for a string [s] *)
Definition strict_eq_string (v : value) (s : string) : bool :=
  match v with
  | VString s' => String.eqb s' s
  | _ => false
  end.

Section Telegram.

Variable type_error_message : value → string → string.

(** The engine's ToString on numbers and objects. *)
Variable engine_to_string : value → string.

(** Imported from [@/server/actions/telegram]. *)
Variable MISSING_USERNAME_ERROR : string.
Variable BOT_NOT_STARTED_ERROR : string.

(** [`${v}`] *)
Definition to_string (v : value) : string :=
  match v with
  | VUndefined => "undefined"
  | VNull => "null"
  | VBool true => "true"
  | VBool false => "false"
  | VString s => s
  | VNumber _ | VObject _ | VError _ => engine_to_string v
  end.

(** Lines 21-91. *)
Definition renderTelegramResponse (success error botId : value)
    (successTitle successMessage : string) : jsx :=
  if negb (Js.truthy success)
     && strict_eq_string error MISSING_USERNAME_ERROR then
    JsxElement "Card" [("className", "bg-card p-6")]
      [JsxElement "h2"
         [("className", "mb-1 text-xl font-semibold text-card-foreground")]
         [JsxText "Missing Telegram Username"];
       JsxElement "p" [("className", "text-sm text-muted-foreground")]
         [JsxText "Please provide a Telegram username."]]
  else if negb (Js.truthy success)
          && strict_eq_string error BOT_NOT_STARTED_ERROR then
    JsxElement "Card" [("className", "bg-card p-6")]
      [JsxElement "h2"
         [("className", "mb-1 text-xl font-semibold text-card-foreground")]
         [JsxText "Bot Not Started"];
       JsxElement "div"
         [("className", "space-y-3 text-sm text-muted-foreground")]
         [JsxElement "p" []
            [JsxText
               "You need to start the bot before using Telegram notifications."];
          JsxElement "p" [("className", "flex items-center gap-1")]
            [JsxElement "span" [] [JsxText "Click here to start:"];
             JsxElement "a"
               [("href", "https://t.me/" +:+ to_string botId);
                ("target", "_blank");
                ("rel", "noopener noreferrer");
                ("className",
                 "inline-flex items-center rounded-md font-medium underline hover:text-primary")]
               [JsxText "@"; JsxExpr botId;
                JsxElement "ExternalLink"
                  [("className", "ml-1 inline-block h-3 w-3")] []]]]]
  else if negb (Js.truthy success) then
    JsxElement "Card" [("className", "bg-card p-6")]
      [JsxElement "h2"
         [("className", "mb-1 text-xl font-semibold text-destructive")]
         [JsxText "Error"];
       JsxElement "p" [("className", "text-sm text-muted-foreground")]
         [JsxExpr error]]
  else
    JsxElement "Card" [("className", "bg-card p-6")]
      [JsxElement "h2"
         [("className", "mb-1 text-xl font-semibold text-card-foreground")]
         [JsxExpr (VString successTitle)];
       if string_truthy successMessage then
         JsxElement "p" [("className", "text-sm text-muted-foreground")]
           [JsxExpr (VString successMessage)]
       else JsxExpr (VString successMessage)].

(** Lines 124-133: [verifyTelegramSetup.render]. *)
Definition verifyTelegramSetup_render (result : value)
    : completion value jsx :=
  let r := result in
  let! success := Js.get type_error_message r "success" in
  let! error := Js.get type_error_message r "error" in
  let! botId := Js.get type_error_message r "botId" in
  Returned (renderTelegramResponse success error botId
              "Setup Verified ✅" "Your Telegram setup is valid.").

(** Lines 188-197: [sendTelegramNotification.render]. *)
Definition sendTelegramNotification_render (result : value)
    : completion value jsx :=
  let r := result in
  let! success := Js.get type_error_message r "success" in
  let! error := Js.get type_error_message r "error" in
  let! botId := Js.get type_error_message r "botId" in
  let! botId' := Js.get type_error_message r "botId" in
  Returned (renderTelegramResponse success error botId
              "Telegram Notification Sent ✅"
              ("Check your Telegram for a message from "
               +:+ to_string botId')).

End Telegram.

Section Bundles.

Variable type_error_message : value → string → string.

(** Lines 276-507: the summary built from a bundle analysis.  It formats
    numbers ([toFixed], [toLocaleString]), which is not modelled here, so
    it is a parameter. *)
Variable analysis_view : value → completion value jsx.

(** Lines 245-276: [analyzeBundles.render] up to the summary. *)
Definition analyzeBundles_render (result : value) : completion value jsx :=
  let typedResult := result in
  let! success := Js.get type_error_message typedResult "success" in
  if negb (Js.truthy success) then
    let! error := Js.get type_error_message typedResult "error" in
    Returned
      (JsxElement "div"
         [("className",
           "relative overflow-hidden rounded-2xl bg-destructive/5 p-4")]
         [JsxElement "div" [("className", "flex items-center gap-3")]
            [JsxElement "p" [("className", "text-sm text-destructive")]
               [JsxText "Error: "; JsxExpr error]]])
  else
    let! data := Js.get type_error_message typedResult "data" in
    if negb (Js.truthy data) then
      Returned
        (JsxElement "div"
           [("className",
             "relative overflow-hidden rounded-2xl bg-muted/50 p-4")]
           [JsxElement "div" [("className", "flex items-center gap-3")]
              [JsxElement "p"
                 [("className", "text-sm text-muted-foreground")]
                 [JsxText "No bundle data available"]]])
    else
      let! analysis := Js.get type_error_message typedResult "data" in
      analysis_view analysis.

End Bundles.

End Render.

(** * Properties *)

(** ** The insertion-ordered set *)

Module JsSetFacts.

Lemma has_spec (s : JsSet.t) (x : string) : JsSet.has s x = true ↔ x ∈ s.
Proof.
  unfold JsSet.has. rewrite existsb_exists. split.
  - intros (y & Hy & Heq). apply String.eqb_eq in Heq. subst y.
    by apply list_elem_of_In.
  - intros Hx. exists x. split; [by apply list_elem_of_In|].
    apply String.eqb_refl.
Qed.

Lemma has_false (s : JsSet.t) (x : string) : JsSet.has s x = false ↔ x ∉ s.
Proof.
  rewrite <- has_spec. destruct (JsSet.has s x); split; congruence.
Qed.

Lemma elem_of_add (s : JsSet.t) (x y : string) :
  y ∈ JsSet.add s x ↔ y ∈ s ∨ y = x.
Proof.
  unfold JsSet.add. destruct (JsSet.has s x) eqn:Hhas.
  - apply has_spec in Hhas. split; [tauto|]. intros [?| ->]; done.
  - rewrite elem_of_app, list_elem_of_singleton. tauto.
Qed.

Lemma NoDup_add (s : JsSet.t) (x : string) :
  NoDup s → NoDup (JsSet.add s x).
Proof.
  intros Hs. unfold JsSet.add. destruct (JsSet.has s x) eqn:Hhas; [done|].
  apply has_false in Hhas. apply NoDup_app. split; [done|]. split.
  - intros y Hy Hyx. apply list_elem_of_singleton in Hyx. by subst y.
  - apply NoDup_singleton.
Qed.

Lemma add_present (s : JsSet.t) (x : string) : x ∈ s → JsSet.add s x = s.
Proof. intros Hx. unfold JsSet.add. apply has_spec in Hx. by rewrite Hx. Qed.

Lemma add_fresh (s : JsSet.t) (x : string) :
  x ∉ s → JsSet.add s x = s ++ [x].
Proof. intros Hx. unfold JsSet.add. apply has_false in Hx. by rewrite Hx. Qed.

Lemma add_all_cons (s : JsSet.t) (x : string) (l : list string) :
  JsSet.add_all s (x :: l) = JsSet.add_all (JsSet.add s x) l.
Proof. reflexivity. Qed.

Lemma add_all_app (s : JsSet.t) (l1 l2 : list string) :
  JsSet.add_all s (l1 ++ l2) = JsSet.add_all (JsSet.add_all s l1) l2.
Proof. unfold JsSet.add_all. apply fold_left_app. Qed.

Lemma elem_of_add_all (l : list string) :
  ∀ (s : JsSet.t) (y : string), y ∈ JsSet.add_all s l ↔ y ∈ s ∨ y ∈ l.
Proof.
  induction l as [|x l IH]; intros s y.
  - cbn. rewrite elem_of_nil. tauto.
  - rewrite add_all_cons, IH, elem_of_add, elem_of_cons. tauto.
Qed.

Lemma NoDup_add_all (l : list string) :
  ∀ s : JsSet.t, NoDup s → NoDup (JsSet.add_all s l).
Proof.
  induction l as [|x l IH]; intros s Hs; [done|].
  rewrite add_all_cons. by apply IH, NoDup_add.
Qed.

(** Insertion never reorders: what was in the set stays in front. *)
Lemma add_all_prefix (l : list string) :
  ∀ s : JsSet.t, ∃ rest, JsSet.add_all s l = s ++ rest.
Proof.
  induction l as [|x l IH]; intros s.
  - exists []. cbn. by rewrite app_nil_r.
  - rewrite add_all_cons. destruct (IH (JsSet.add s x)) as [rest ->].
    unfold JsSet.add. destruct (JsSet.has s x).
    + by exists rest.
    + exists (x :: rest). by rewrite <- app_assoc.
Qed.

Lemma add_all_absorb (l : list string) :
  ∀ s : JsSet.t, (∀ x, x ∈ l → x ∈ s) → JsSet.add_all s l = s.
Proof.
  induction l as [|x l IH]; intros s Hin; [done|].
  rewrite add_all_cons, add_present.
  - apply IH. intros y Hy. apply Hin. by right.
  - apply Hin. by left.
Qed.

Lemma add_all_fresh (l : list string) :
  ∀ s : JsSet.t, NoDup (s ++ l) → JsSet.add_all s l = s ++ l.
Proof.
  induction l as [|x l IH]; intros s Hnd.
  - cbn. by rewrite app_nil_r.
  - rewrite add_all_cons, add_fresh.
    + rewrite IH by (by rewrite <- app_assoc). by rewrite <- app_assoc.
    + apply NoDup_app in Hnd as (_ & Hdisj & _).
      intros Hx. apply (Hdisj x Hx). by left.
Qed.

Lemma add_all_idempotent (s : JsSet.t) (l : list string) :
  NoDup s → JsSet.add_all s (JsSet.add_all s l) = JsSet.add_all s l.
Proof.
  intros Hs. pose proof (NoDup_add_all l s Hs) as Hnd.
  destruct (add_all_prefix l s) as [rest Hrest]. rewrite Hrest in *.
  rewrite add_all_app. rewrite (add_all_absorb s s) by auto.
  by apply add_all_fresh.
Qed.

Lemma NoDup_from_iterable (l : list string) : NoDup (JsSet.from_iterable l).
Proof. apply NoDup_add_all, NoDup_nil_2. Qed.

Lemma elem_of_from_iterable (l : list string) (y : string) :
  y ∈ JsSet.from_iterable l ↔ y ∈ l.
Proof.
  unfold JsSet.from_iterable. rewrite elem_of_add_all.
  unfold JsSet.empty. rewrite elem_of_nil. tauto.
Qed.

End JsSetFacts.

(** ** The augmentation step *)

Lemma NoDup_confirmationTools (conf : option string) :
  NoDup (confirmationTools conf).
Proof.
  unfold confirmationTools. destruct (opt_string_truthy conf).
  - apply NoDup_singleton.
  - apply NoDup_cons. split; [|apply NoDup_singleton].
    intros Hin. apply list_elem_of_singleton in Hin. discriminate.
Qed.

Lemma searchToken_in_confirmationTools (conf : option string) :
  "searchToken" ∈ confirmationTools conf.
Proof.
  unfold confirmationTools. destruct (opt_string_truthy conf); by left.
Qed.

Lemma augment_unfold (conf : option string) (c : list string) :
  augment conf c = JsSet.from_iterable (confirmationTools conf ++ c).
Proof. reflexivity. Qed.

Lemma elem_of_augment (conf : option string) (c : list string) (t : string) :
  t ∈ augment conf c ↔ t ∈ confirmationTools conf ∨ t ∈ c.
Proof.
  by rewrite augment_unfold, JsSetFacts.elem_of_from_iterable, elem_of_app.
Qed.

Lemma NoDup_augment (conf : option string) (c : list string) :
  NoDup (augment conf c).
Proof. apply JsSetFacts.NoDup_from_iterable. Qed.

Lemma augment_nonempty (conf : option string) (c : list string) :
  augment conf c ≠ [].
Proof.
  intros Hnil.
  assert ("searchToken" ∈ augment conf c) as Hin.
  { apply elem_of_augment. left. apply searchToken_in_confirmationTools. }
  rewrite Hnil in Hin. by apply elem_of_nil in Hin.
Qed.

(** The baseline comes first in the returned array, in its own order. *)
Lemma augment_baseline_first (conf : option string) (c : list string) :
  ∃ rest, augment conf c = confirmationTools conf ++ rest.
Proof.
  rewrite augment_unfold. unfold JsSet.from_iterable.
  rewrite JsSetFacts.add_all_app.
  rewrite (JsSetFacts.add_all_fresh (confirmationTools conf) JsSet.empty)
    by apply NoDup_confirmationTools.
  apply JsSetFacts.add_all_prefix.
Qed.

Lemma augment_as_set (conf : option string) (c : list string) :
  list_to_set (augment conf c)
  =@{gset string} list_to_set (confirmationTools conf) ∪ list_to_set c.
Proof.
  apply set_eq. intros t.
  rewrite elem_of_union, !elem_of_list_to_set. apply elem_of_augment.
Qed.

Lemma confirmationTools_truthy (s : string) :
  s ≠ "" → confirmationTools (Some s) = ["searchToken"].
Proof. intros Hs. destruct s; [done|reflexivity]. Qed.

(** ** [getToolsFromOrchestrator], branch by branch *)

Section SelectorFacts.

Context {Message LanguageModelUsage Err : Type}.

Variable generateObject :
  option (list Message) →
  completion Err (GenerateObjectResult LanguageModelUsage).
Variable messages : option (list Message).
Variable confirmationResultMessage : option string.

Lemma selector_empty (u : LanguageModelUsage) (candidates : list string) :
  generateObject messages = Returned (mkGenerated candidates u) →
  length candidates = 0 →
  getToolsFromOrchestrator generateObject messages confirmationResultMessage
  = Returned (mkResult u None).
Proof.
  intros Hgen Hlen. unfold getToolsFromOrchestrator. rewrite Hgen. cbn.
  by rewrite Hlen.
Qed.

Lemma selector_nonempty (u : LanguageModelUsage) (candidates : list string) :
  generateObject messages = Returned (mkGenerated candidates u) →
  candidates ≠ [] →
  getToolsFromOrchestrator generateObject messages confirmationResultMessage
  = Returned (mkResult u (Some (augment confirmationResultMessage candidates))).
Proof.
  intros Hgen Hne. unfold getToolsFromOrchestrator. rewrite Hgen. cbn.
  by destruct candidates.
Qed.

Lemma selector_thrown (e : Err) :
  generateObject messages = Thrown e →
  getToolsFromOrchestrator generateObject messages confirmationResultMessage
  = Thrown e.
Proof. intros Hgen. unfold getToolsFromOrchestrator. by rewrite Hgen. Qed.

End SelectorFacts.

(** ** The selector's contract *)

(** C1: when the classifier returns a non-empty candidate array, whatever
    the confirmation signal, [getToolsFromOrchestrator] returns a tool array
    that is, as a set, the union of the baseline [confirmationTools] and the
    candidates: every candidate is in it, nothing else but baseline tools is,
    and the array is non-empty and free of duplicates. *)
Theorem selector_returns_union
    {Message LanguageModelUsage Err : Type}
    (generateObject : option (list Message) →
                      completion Err (GenerateObjectResult LanguageModelUsage))
    (messages : option (list Message))
    (confirmationResultMessage : option string)
    (candidates : list string) (u : LanguageModelUsage) :
  generateObject messages = Returned (mkGenerated candidates u) →
  candidates ≠ [] →
  ∃ tools : list string,
    getToolsFromOrchestrator generateObject messages confirmationResultMessage
    = Returned (mkResult u (Some tools))
    ∧ list_to_set tools
      =@{gset string}
      list_to_set (confirmationTools confirmationResultMessage)
      ∪ list_to_set candidates
    ∧ (∀ t, t ∈ candidates → t ∈ tools)
    ∧ (∀ t, t ∈ tools →
            t ∈ confirmationTools confirmationResultMessage ∨ t ∈ candidates)
    ∧ tools ≠ []
    ∧ NoDup tools.
Proof.
  intros Hgen Hne. exists (augment confirmationResultMessage candidates).
  split; [by apply selector_nonempty|].
  split; [apply augment_as_set|].
  split; [intros t Ht; apply elem_of_augment; by right|].
  split; [intros t Ht; by apply elem_of_augment|].
  split; [apply augment_nonempty|apply NoDup_augment].
Qed.

Lemma selector_returns_union_witness :
  ∃ tools : list string,
    getToolsFromOrchestrator (Message := unit) (Err := unit)
      (λ _, Returned (mkGenerated ["analyzeBundles"; "searchToken"] 7))
      None (Some "yes")
    = Returned (mkResult 7 (Some tools))
    ∧ list_to_set tools
      =@{gset string}
      list_to_set (confirmationTools (Some "yes"))
      ∪ list_to_set ["analyzeBundles"; "searchToken"]
    ∧ (∀ t, t ∈ ["analyzeBundles"; "searchToken"] → t ∈ tools)
    ∧ (∀ t, t ∈ tools →
            t ∈ confirmationTools (Some "yes")
            ∨ t ∈ ["analyzeBundles"; "searchToken"])
    ∧ tools ≠ []
    ∧ NoDup tools.
Proof.
  apply (selector_returns_union (Message := unit) (Err := unit)
           (λ _, Returned (mkGenerated ["analyzeBundles"; "searchToken"] 7))
           None (Some "yes") ["analyzeBundles"; "searchToken"] 7).
  - reflexivity.
  - discriminate.
Defined.

(** C2: when the classifier returns a candidate array of length 0, the
    result carries no tool array at all ([toolsRequired] is [undefined],
    which is not the empty array), and the confirmation signal plays no
    part: the result is the same for every signal. *)
Theorem selector_no_tools_required
    {Message LanguageModelUsage Err : Type}
    (generateObject : option (list Message) →
                      completion Err (GenerateObjectResult LanguageModelUsage))
    (messages : option (list Message))
    (confirmationResultMessage : option string)
    (candidates : list string) (u : LanguageModelUsage) :
  generateObject messages = Returned (mkGenerated candidates u) →
  length candidates = 0 →
  getToolsFromOrchestrator generateObject messages confirmationResultMessage
  = Returned (mkResult u None)
  ∧ (∀ r, getToolsFromOrchestrator generateObject messages
            confirmationResultMessage = Returned r →
          toolsRequired r = None ∧ toolsRequired r ≠ Some [])
  ∧ (∀ other : option string,
       getToolsFromOrchestrator generateObject messages other
       = getToolsFromOrchestrator generateObject messages
           confirmationResultMessage).
Proof.
  intros Hgen Hlen.
  pose proof (λ conf, selector_empty generateObject messages conf u
                        candidates Hgen Hlen) as Hempty.
  split; [apply Hempty|]. split.
  - intros r Hr. rewrite Hempty in Hr. injection Hr as <-. by cbn.
  - intros other. by rewrite !Hempty.
Qed.

Lemma selector_no_tools_required_witness :
  getToolsFromOrchestrator (Message := unit) (Err := unit)
    (λ _, Returned (mkGenerated [] 7)) None (Some "yes")
  = Returned (mkResult 7 None)
  ∧ (∀ r, getToolsFromOrchestrator (Message := unit) (Err := unit)
            (λ _, Returned (mkGenerated [] 7)) None (Some "yes")
          = Returned r →
          toolsRequired r = None ∧ toolsRequired r ≠ Some [])
  ∧ (∀ other : option string,
       getToolsFromOrchestrator (Message := unit) (Err := unit)
         (λ _, Returned (mkGenerated [] 7)) None other
       = getToolsFromOrchestrator (Message := unit) (Err := unit)
           (λ _, Returned (mkGenerated [] 7)) None (Some "yes")).
Proof.
  apply (selector_no_tools_required (Message := unit) (Err := unit)
           (λ _, Returned (mkGenerated [] 7)) None (Some "yes") [] 7).
  - reflexivity.
  - reflexivity.
Defined.

(** C3: with a non-empty candidate array and a confirmation signal that is a
    non-empty string, the returned tools contain ["searchToken"], and contain
    ["askForConfirmation"] exactly when the classifier proposed it; for the
    candidates [["analyzeBundles"]] and the signal ["yes"] the result is
    [["searchToken"; "analyzeBundles"]]. *)
Theorem selector_confirmed_withholds_confirmation
    {Message LanguageModelUsage Err : Type}
    (generateObject : option (list Message) →
                      completion Err (GenerateObjectResult LanguageModelUsage))
    (messages : option (list Message))
    (signal : string)
    (candidates : list string) (u : LanguageModelUsage) :
  generateObject messages = Returned (mkGenerated candidates u) →
  candidates ≠ [] →
  signal ≠ "" →
  ∃ tools : list string,
    getToolsFromOrchestrator generateObject messages (Some signal)
    = Returned (mkResult u (Some tools))
    ∧ "searchToken" ∈ tools
    ∧ ("askForConfirmation" ∈ tools ↔ "askForConfirmation" ∈ candidates)
    ∧ (candidates = ["analyzeBundles"] → signal = "yes" →
       tools = ["searchToken"; "analyzeBundles"]
       ∧ list_to_set tools =@{gset string} {["searchToken"; "analyzeBundles"]}).
Proof.
  intros Hgen Hne Hsig. exists (augment (Some signal) candidates).
  split; [by apply selector_nonempty|].
  split; [apply elem_of_augment; left;
          apply searchToken_in_confirmationTools|].
  split.
  - rewrite elem_of_augment, confirmationTools_truthy by done.
    rewrite list_elem_of_singleton. split; [|tauto].
    intros [Heq|Hin]; [discriminate|done].
  - intros -> ->. split; [reflexivity|].
    cbn. set_solver.
Qed.

Lemma selector_confirmed_withholds_confirmation_witness :
  ∃ tools : list string,
    getToolsFromOrchestrator (Message := unit) (Err := unit)
      (λ _, Returned (mkGenerated ["analyzeBundles"] 7)) None (Some "yes")
    = Returned (mkResult 7 (Some tools))
    ∧ "searchToken" ∈ tools
    ∧ ("askForConfirmation" ∈ tools
       ↔ "askForConfirmation" ∈ ["analyzeBundles"])
    ∧ (["analyzeBundles"] = ["analyzeBundles"] → "yes" = "yes" →
       tools = ["searchToken"; "analyzeBundles"]
       ∧ list_to_set tools =@{gset string} {["searchToken"; "analyzeBundles"]}).
Proof.
  apply (selector_confirmed_withholds_confirmation
           (Message := unit) (Err := unit)
           (λ _, Returned (mkGenerated ["analyzeBundles"] 7))
           None "yes" ["analyzeBundles"] 7).
  - reflexivity.
  - discriminate.
  - discriminate.
Defined.

(** C4: with a non-empty candidate array and no confirmation signal, the
    returned tools include both ["searchToken"] and ["askForConfirmation"];
    for the candidates [["analyzeBundles"]] the result is
    [["searchToken"; "askForConfirmation"; "analyzeBundles"]]. *)
Theorem selector_unconfirmed_includes_baseline
    {Message LanguageModelUsage Err : Type}
    (generateObject : option (list Message) →
                      completion Err (GenerateObjectResult LanguageModelUsage))
    (messages : option (list Message))
    (candidates : list string) (u : LanguageModelUsage) :
  generateObject messages = Returned (mkGenerated candidates u) →
  candidates ≠ [] →
  ∃ tools : list string,
    getToolsFromOrchestrator generateObject messages None
    = Returned (mkResult u (Some tools))
    ∧ {["searchToken"; "askForConfirmation"]} ⊆@{gset string} list_to_set tools
    ∧ "searchToken" ∈ tools
    ∧ "askForConfirmation" ∈ tools
    ∧ (candidates = ["analyzeBundles"] →
       tools = ["searchToken"; "askForConfirmation"; "analyzeBundles"]
       ∧ list_to_set tools
         =@{gset string}
         {["searchToken"; "askForConfirmation"; "analyzeBundles"]}).
Proof.
  intros Hgen Hne. exists (augment None candidates).
  assert ("searchToken" ∈ augment None candidates) as Hsearch.
  { apply elem_of_augment. left. by left. }
  assert ("askForConfirmation" ∈ augment None candidates) as Hask.
  { apply elem_of_augment. left. right. by left. }
  split; [by apply selector_nonempty|].
  split.
  { intros t Ht. apply elem_of_list_to_set.
    apply elem_of_union in Ht as [Ht|Ht];
      apply elem_of_singleton in Ht; by subst t. }
  split; [done|]. split; [done|].
  intros ->. split; [reflexivity|]. cbn. set_solver.
Qed.

Lemma selector_unconfirmed_includes_baseline_witness :
  ∃ tools : list string,
    getToolsFromOrchestrator (Message := unit) (Err := unit)
      (λ _, Returned (mkGenerated ["analyzeBundles"] 7)) None None
    = Returned (mkResult 7 (Some tools))
    ∧ {["searchToken"; "askForConfirmation"]} ⊆@{gset string} list_to_set tools
    ∧ "searchToken" ∈ tools
    ∧ "askForConfirmation" ∈ tools
    ∧ (["analyzeBundles"] = ["analyzeBundles"] →
       tools = ["searchToken"; "askForConfirmation"; "analyzeBundles"]
       ∧ list_to_set tools
         =@{gset string}
         {["searchToken"; "askForConfirmation"; "analyzeBundles"]}).
Proof.
  apply (selector_unconfirmed_includes_baseline
           (Message := unit) (Err := unit)
           (λ _, Returned (mkGenerated ["analyzeBundles"] 7))
           None ["analyzeBundles"] 7).
  - reflexivity.
  - discriminate.
Defined.

(** C5: whenever [getToolsFromOrchestrator] returns a tool array, for any
    candidates and any confirmation signal, the array has no duplicates:
    every candidate occurs in it exactly once.  For the candidates
    [["searchToken"; "searchToken"]] and no signal the result is
    [["searchToken"; "askForConfirmation"]], of length 2. *)
Theorem selector_result_duplicate_free
    {Message LanguageModelUsage Err : Type}
    (generateObject : option (list Message) →
                      completion Err (GenerateObjectResult LanguageModelUsage))
    (messages : option (list Message))
    (confirmationResultMessage : option string)
    (candidates : list string) (u : LanguageModelUsage)
    (r : OrchestratorResult LanguageModelUsage) (tools : list string) :
  generateObject messages = Returned (mkGenerated candidates u) →
  getToolsFromOrchestrator generateObject messages confirmationResultMessage
  = Returned r →
  toolsRequired r = Some tools →
  NoDup tools
  ∧ (∀ t, t ∈ candidates → count_occ String.string_dec tools t = 1)
  ∧ (candidates = ["searchToken"; "searchToken"] →
     confirmationResultMessage = None →
     tools = ["searchToken"; "askForConfirmation"] ∧ length tools = 2).
Proof.
  intros Hgen Hrun Htools.
  destruct candidates as [|c candidates].
  { rewrite (selector_empty _ _ _ u [] Hgen eq_refl) in Hrun.
    injection Hrun as <-. discriminate. }
  rewrite (selector_nonempty _ _ _ u (c :: candidates) Hgen) in Hrun by done.
  injection Hrun as <-. cbn in Htools. injection Htools as <-.
  split; [apply NoDup_augment|]. split.
  - intros t Ht.
    apply (proj1 (NoDup_count_occ' String.string_dec _)).
    + apply NoDup_ListNoDup, NoDup_augment.
    + apply list_elem_of_In, elem_of_augment. by right.
  - intros Hc ->. injection Hc as -> ->. by split.
Qed.

Lemma selector_result_duplicate_free_witness :
  getToolsFromOrchestrator (Message := unit) (Err := unit)
    (λ _, Returned (mkGenerated ["searchToken"; "searchToken"] 7)) None None
  = Returned (mkResult 7 (Some ["searchToken"; "askForConfirmation"]))
  ∧ NoDup ["searchToken"; "askForConfirmation"]
  ∧ (∀ t, t ∈ ["searchToken"; "searchToken"] →
          count_occ String.string_dec
            ["searchToken"; "askForConfirmation"] t = 1)
  ∧ (["searchToken"; "searchToken"] = ["searchToken"; "searchToken"] →
     None =@{option string} None →
     ["searchToken"; "askForConfirmation"]
     = ["searchToken"; "askForConfirmation"]
     ∧ length ["searchToken"; "askForConfirmation"] = 2).
Proof.
  split; [reflexivity|].
  apply (selector_result_duplicate_free (Message := unit) (Err := unit)
           (λ _, Returned (mkGenerated ["searchToken"; "searchToken"] 7))
           None None ["searchToken"; "searchToken"] 7
           (mkResult 7 (Some ["searchToken"; "askForConfirmation"]))
           ["searchToken"; "askForConfirmation"]).
  - reflexivity.
  - reflexivity.
  - reflexivity.
Defined.

(** C6: the baseline depends on the confirmation signal alone.  Two runs
    with the same signal and any two non-empty candidate arrays add the same
    baseline [confirmationTools]: both results are the set built from that
    baseline followed by the run's candidates, both start with it, and a tool
    proposed in neither run is in one result exactly when it is in the
    other. *)
Theorem selector_baseline_noninterference
    {Message LanguageModelUsage Err : Type}
    (generateObject1 generateObject2 :
       option (list Message) →
       completion Err (GenerateObjectResult LanguageModelUsage))
    (messages1 messages2 : option (list Message))
    (confirmationResultMessage : option string)
    (candidates1 candidates2 : list string) (u1 u2 : LanguageModelUsage) :
  generateObject1 messages1 = Returned (mkGenerated candidates1 u1) →
  generateObject2 messages2 = Returned (mkGenerated candidates2 u2) →
  candidates1 ≠ [] →
  candidates2 ≠ [] →
  ∃ (baseline tools1 tools2 rest1 rest2 : list string),
    baseline = confirmationTools confirmationResultMessage
    ∧ getToolsFromOrchestrator generateObject1 messages1
        confirmationResultMessage
      = Returned (mkResult u1 (Some tools1))
    ∧ getToolsFromOrchestrator generateObject2 messages2
        confirmationResultMessage
      = Returned (mkResult u2 (Some tools2))
    ∧ tools1 = JsSet.spread (JsSet.from_iterable (baseline ++ candidates1))
    ∧ tools2 = JsSet.spread (JsSet.from_iterable (baseline ++ candidates2))
    ∧ tools1 = baseline ++ rest1
    ∧ tools2 = baseline ++ rest2
    ∧ (∀ t, t ∉ candidates1 → t ∉ candidates2 → (t ∈ tools1 ↔ t ∈ tools2)).
Proof.
  intros Hgen1 Hgen2 Hne1 Hne2.
  destruct (augment_baseline_first confirmationResultMessage candidates1)
    as [rest1 Hrest1].
  destruct (augment_baseline_first confirmationResultMessage candidates2)
    as [rest2 Hrest2].
  exists (confirmationTools confirmationResultMessage),
    (augment confirmationResultMessage candidates1),
    (augment confirmationResultMessage candidates2), rest1, rest2.
  split; [done|].
  split; [by apply selector_nonempty|].
  split; [by apply selector_nonempty|].
  split; [done|]. split; [done|]. split; [done|]. split; [done|].
  intros t Ht1 Ht2. rewrite !elem_of_augment. tauto.
Qed.

Lemma selector_baseline_noninterference_witness :
  ∃ (baseline tools1 tools2 rest1 rest2 : list string),
    baseline = confirmationTools (Some "yes")
    ∧ getToolsFromOrchestrator (Message := unit) (Err := unit)
        (λ _, Returned (mkGenerated ["analyzeBundles"] 7)) None (Some "yes")
      = Returned (mkResult 7 (Some tools1))
    ∧ getToolsFromOrchestrator (Message := unit) (Err := unit)
        (λ _, Returned (mkGenerated ["askForConfirmation"; "searchToken"] 9))
        (Some []) (Some "yes")
      = Returned (mkResult 9 (Some tools2))
    ∧ tools1
      = JsSet.spread (JsSet.from_iterable (baseline ++ ["analyzeBundles"]))
    ∧ tools2
      = JsSet.spread
          (JsSet.from_iterable
             (baseline ++ ["askForConfirmation"; "searchToken"]))
    ∧ tools1 = baseline ++ rest1
    ∧ tools2 = baseline ++ rest2
    ∧ (∀ t, t ∉ ["analyzeBundles"] →
            t ∉ ["askForConfirmation"; "searchToken"] →
            (t ∈ tools1 ↔ t ∈ tools2)).
Proof.
  apply (selector_baseline_noninterference (Message := unit) (Err := unit)
           (λ _, Returned (mkGenerated ["analyzeBundles"] 7))
           (λ _, Returned (mkGenerated ["askForConfirmation"; "searchToken"] 9))
           None (Some []) (Some "yes")
           ["analyzeBundles"] ["askForConfirmation"; "searchToken"] 7 9).
  - reflexivity.
  - reflexivity.
  - discriminate.
  - discriminate.
Defined.

(** C7: the augmentation step is idempotent.  For every candidate array and
    confirmation signal, augmenting the output of the augmentation gives
    that output again (the same array, hence the same set); and a second run
    of the selector whose classifier proposes the first run's tools returns
    the first run's tools. *)
Theorem augmentation_idempotent
    (confirmationResultMessage : option string) (candidates : list string) :
  augment confirmationResultMessage
    (augment confirmationResultMessage candidates)
  = augment confirmationResultMessage candidates
  ∧ list_to_set (augment confirmationResultMessage
                   (augment confirmationResultMessage candidates))
    =@{gset string}
    list_to_set (augment confirmationResultMessage candidates)
  ∧ (∀ (Message LanguageModelUsage Err : Type)
       (generateObject1 generateObject2 :
          option (list Message) →
          completion Err (GenerateObjectResult LanguageModelUsage))
       (messages1 messages2 : option (list Message))
       (u1 u2 : LanguageModelUsage) (tools : list string),
       getToolsFromOrchestrator generateObject1 messages1
         confirmationResultMessage
       = Returned (mkResult u1 (Some tools)) →
       generateObject1 messages1 = Returned (mkGenerated candidates u1) →
       generateObject2 messages2 = Returned (mkGenerated tools u2) →
       getToolsFromOrchestrator generateObject2 messages2
         confirmationResultMessage
       = Returned (mkResult u2 (Some tools))).
Proof.
  assert (augment confirmationResultMessage
            (augment confirmationResultMessage candidates)
          = augment confirmationResultMessage candidates) as Hidem.
  { rewrite !augment_unfold. unfold JsSet.from_iterable.
    rewrite !JsSetFacts.add_all_app.
    apply JsSetFacts.add_all_idempotent, JsSetFacts.NoDup_add_all.
    apply NoDup_nil_2. }
  split; [done|]. split; [by rewrite Hidem|].
  intros Message LanguageModelUsage Err gen1 gen2 m1 m2 u1 u2 tools
    Hrun1 Hgen1 Hgen2.
  destruct candidates as [|c cs].
  { rewrite (selector_empty _ _ _ u1 [] Hgen1 eq_refl) in Hrun1.
    discriminate. }
  rewrite (selector_nonempty _ _ _ u1 (c :: cs) Hgen1) in Hrun1 by done.
  injection Hrun1 as <-.
  rewrite (selector_nonempty _ _ _ u2 _ Hgen2) by apply augment_nonempty.
  by rewrite Hidem.
Qed.

Lemma augmentation_idempotent_witness :
  getToolsFromOrchestrator (Message := unit) (Err := unit)
    (λ _, Returned
            (mkGenerated ["searchToken"; "askForConfirmation";
                          "analyzeBundles"] 9))
    None None
  = Returned
      (mkResult 9 (Some ["searchToken"; "askForConfirmation";
                         "analyzeBundles"])).
Proof.
  apply (proj2 (proj2 (augmentation_idempotent None ["analyzeBundles"]))
           unit nat unit
           (λ _, Returned (mkGenerated ["analyzeBundles"] 7))
           (λ _, Returned
                   (mkGenerated ["searchToken"; "askForConfirmation";
                                 "analyzeBundles"] 9))
           None None 7 9).
  - reflexivity.
  - reflexivity.
  - reflexivity.
Defined.

(** C8: in both branches the result carries the classifier's usage record
    as it was returned: whenever the classification call returns,
    [getToolsFromOrchestrator] returns, and the [usage] of its result is the
    [usage] of the call, for empty and non-empty candidates alike. *)
Theorem selector_passes_usage_through
    {Message LanguageModelUsage Err : Type}
    (generateObject : option (list Message) →
                      completion Err (GenerateObjectResult LanguageModelUsage))
    (messages : option (list Message))
    (confirmationResultMessage : option string)
    (generated : GenerateObjectResult LanguageModelUsage) :
  generateObject messages = Returned generated →
  ∃ r : OrchestratorResult LanguageModelUsage,
    getToolsFromOrchestrator generateObject messages confirmationResultMessage
    = Returned r
    ∧ usage r = object_usage generated
    ∧ (object generated = [] → toolsRequired r = None)
    ∧ (object generated ≠ [] → is_Some (toolsRequired r)).
Proof.
  intros Hgen. destruct generated as [candidates u].
  destruct candidates as [|c cs].
  - exists (mkResult u None).
    split; [by apply (selector_empty _ _ _ u [])|]. by cbn.
  - exists (mkResult u (Some (augment confirmationResultMessage (c :: cs)))).
    split; [by apply selector_nonempty|]. cbn.
    split; [done|]. split; [done|]. by eexists.
Qed.

Lemma selector_passes_usage_through_witness :
  ∃ r : OrchestratorResult nat,
    getToolsFromOrchestrator (Message := unit) (Err := unit)
      (λ _, Returned (mkGenerated ["analyzeBundles"] 7)) None (Some "yes")
    = Returned r
    ∧ usage r = object_usage (mkGenerated ["analyzeBundles"] 7)
    ∧ (object (mkGenerated ["analyzeBundles"] 7) = [] →
       toolsRequired r = None)
    ∧ (object (mkGenerated ["analyzeBundles"] 7) ≠ [] →
       is_Some (toolsRequired r)).
Proof.
  apply (selector_passes_usage_through (Message := unit) (Err := unit)
           (λ _, Returned (mkGenerated ["analyzeBundles"] 7))
           None (Some "yes") (mkGenerated ["analyzeBundles"] 7)).
  reflexivity.
Defined.

(** C9: the empty string counts as no confirmation signal.  The baseline
    for [""] is [["searchToken"; "askForConfirmation"]], the baseline for
    [undefined]; with a non-empty candidate array the result for [""] is the
    result for [undefined], and it contains both baseline tools. *)
Theorem selector_empty_signal_is_absent
    {Message LanguageModelUsage Err : Type}
    (generateObject : option (list Message) →
                      completion Err (GenerateObjectResult LanguageModelUsage))
    (messages : option (list Message))
    (candidates : list string) (u : LanguageModelUsage) :
  generateObject messages = Returned (mkGenerated candidates u) →
  candidates ≠ [] →
  confirmationTools (Some "") = ["searchToken"; "askForConfirmation"]
  ∧ confirmationTools (Some "") = confirmationTools None
  ∧ getToolsFromOrchestrator generateObject messages (Some "")
    = getToolsFromOrchestrator generateObject messages None
  ∧ ∃ tools rest : list string,
      getToolsFromOrchestrator generateObject messages (Some "")
      = Returned (mkResult u (Some tools))
      ∧ tools
        = JsSet.spread
            (JsSet.from_iterable
               (["searchToken"; "askForConfirmation"] ++ candidates))
      ∧ tools = ["searchToken"; "askForConfirmation"] ++ rest.
Proof.
  intros Hgen Hne. split; [reflexivity|]. split; [reflexivity|].
  split.
  - by rewrite !(selector_nonempty _ _ _ u candidates Hgen Hne).
  - destruct (augment_baseline_first (Some "") candidates) as [rest Hrest].
    exists (augment (Some "") candidates), rest.
    split; [by apply selector_nonempty|]. by split.
Qed.

Lemma selector_empty_signal_is_absent_witness :
  confirmationTools (Some "") = ["searchToken"; "askForConfirmation"]
  ∧ confirmationTools (Some "") = confirmationTools None
  ∧ getToolsFromOrchestrator (Message := unit) (Err := unit)
      (λ _, Returned (mkGenerated ["analyzeBundles"] 7)) None (Some "")
    = getToolsFromOrchestrator (Message := unit) (Err := unit)
        (λ _, Returned (mkGenerated ["analyzeBundles"] 7)) None None
  ∧ ∃ tools rest : list string,
      getToolsFromOrchestrator (Message := unit) (Err := unit)
        (λ _, Returned (mkGenerated ["analyzeBundles"] 7)) None (Some "")
      = Returned (mkResult 7 (Some tools))
      ∧ tools
        = JsSet.spread
            (JsSet.from_iterable
               (["searchToken"; "askForConfirmation"] ++ ["analyzeBundles"]))
      ∧ tools = ["searchToken"; "askForConfirmation"] ++ rest.
Proof.
  apply (selector_empty_signal_is_absent (Message := unit) (Err := unit)
           (λ _, Returned (mkGenerated ["analyzeBundles"] 7))
           None ["analyzeBundles"] 7).
  - reflexivity.
  - discriminate.
Defined.

(** ** The tools' [execute] operations and exceptions *)

Section Guarded.

Variable type_error_message : value → string → string.

Lemma get_message_of_error (m : string) :
  Js.get type_error_message (VError m) "message" = Returned (VString m).
Proof. reflexivity. Qed.

(** The [catch] clause itself never throws, and builds a failure record
    from the thrown value: its [message] when it is an [Error], the tool's
    own text otherwise. *)
Lemma catch_result_failure (fallback : string) (err : value) :
  ∃ msg : string,
    Js.catch_result type_error_message fallback err
    = Returned (failure_record msg)
    ∧ (∀ m, err = VError m → msg = m)
    ∧ (Js.instanceof_Error err = false → msg = fallback).
Proof.
  destruct err as [| |b|n|s|fields|m];
    try (exists fallback; split; [reflexivity|]; split; [discriminate|done]).
  exists m. split; [reflexivity|]. split; [|discriminate].
  intros m' Hm'. by injection Hm'.
Qed.

(** A [try] block guarded by that [catch] clause always completes normally:
    with the block's own value when it returned, with a failure record when
    it threw. *)
Lemma guarded_returns (fallback : string) (body : completion value value) :
  ∃ r : value,
    try_catch body (Js.catch_result type_error_message fallback) = Returned r
    ∧ (∀ a, body = Returned a → r = a)
    ∧ (∀ e, body = Thrown e →
         ∃ msg, r = failure_record msg
                ∧ (∀ m, e = VError m → msg = m)
                ∧ (Js.instanceof_Error e = false → msg = fallback)).
Proof.
  destruct body as [a|e]; cbn.
  - exists a. split; [done|]. split; [by intros ? [= <-]|discriminate].
  - destruct (catch_result_failure fallback e) as (msg & Hcatch & Hmsg).
    exists (failure_record msg). split; [done|]. split; [discriminate|].
    intros e' [= <-]. by exists msg.
Qed.

Lemma guarded_thrown (fallback : string) (body : completion value value)
    (e : value) :
  body = Thrown e →
  ∃ msg : string,
    try_catch body (Js.catch_result type_error_message fallback)
    = Returned (failure_record msg).
Proof.
  intros ->. cbn.
  destruct (catch_result_failure fallback e) as (msg & Hcatch & _).
  by exists msg.
Qed.

End Guarded.

Section SendFacts.

Variable type_error_message : value → string → string.
Variable MISSING_USERNAME_ERROR : string.
Variable checkTelegramUsername : value → completion value value.
Variable sendTelegramNotification : value → completion value value.

(** When the notification action throws whenever it is called, the [try]
    block either threw (there or before) or returned a failure record (the
    username was missing). *)
Lemma send_try_when_action_throws (this : value) (username : option string)
    (message : string) (e : value) :
  (∀ arg, sendTelegramNotification arg = Thrown e) →
  (∃ e', telegramTools.sendTelegramNotification_try type_error_message
           MISSING_USERNAME_ERROR checkTelegramUsername
           sendTelegramNotification this username message = Thrown e')
  ∨ telegramTools.sendTelegramNotification_try type_error_message
      MISSING_USERNAME_ERROR checkTelegramUsername
      sendTelegramNotification this username message
    = Returned (failure_record MISSING_USERNAME_ERROR).
Proof.
  intros Hthrows. unfold telegramTools.sendTelegramNotification_try.
  destruct (Js.get type_error_message this "userId") as [userId|e1]; cbn;
    [|by left; eexists].
  destruct (checkTelegramUsername (Js.or userId VUndefined))
    as [usernameCheck|e2]; cbn; [|by left; eexists].
  destruct (opt_string_truthy username); cbn.
  - rewrite Hthrows. cbn. left. by eexists.
  - destruct (Js.get type_error_message usernameCheck "username")
      as [saved|e3]; cbn; [|by left; eexists].
    destruct (Js.truthy saved); cbn.
    + rewrite Hthrows. cbn. left. by eexists.
    + by right.
Qed.

End SendFacts.

(** C10: the [execute] operations of [verifyTelegramSetup],
    [sendTelegramNotification] and [analyzeBundles] never throw.  For every
    input, every receiver and every outcome of the server actions they call,
    [execute] completes normally with a record; and when an action throws
    (or anything else inside the [try] block does), that record is
    [{ success: false, error: msg }] with a string [msg]: the [message] of
    the thrown [Error], or the tool's own text for any other thrown value. *)
Theorem tools_execute_never_throw
    (type_error_message : value → string → string)
    (MISSING_USERNAME_ERROR : string)
    (verifyTelegramSetupAction checkTelegramUsername
       sendTelegramNotification analyzeMintBundles :
       value → completion value value)
    (this : value) (username : option string)
    (message mintAddress : string) :
  ((∃ r, telegramTools.verifyTelegramSetup_execute type_error_message
           verifyTelegramSetupAction username = Returned r)
   ∧ (∀ e,
        verifyTelegramSetupAction
          (VObject [("username", Js.of_opt_string username)]) = Thrown e →
        ∃ msg,
          telegramTools.verifyTelegramSetup_execute type_error_message
            verifyTelegramSetupAction username
          = Returned (failure_record msg)
          ∧ (∀ m, e = VError m → msg = m)
          ∧ (Js.instanceof_Error e = false → msg = "Verification failed"))
   ∧ (∀ e,
        telegramTools.verifyTelegramSetup_try type_error_message
          verifyTelegramSetupAction username = Thrown e →
        ∃ msg,
          telegramTools.verifyTelegramSetup_execute type_error_message
            verifyTelegramSetupAction username
          = Returned (failure_record msg)))
  ∧ ((∃ r, telegramTools.sendTelegramNotification_execute type_error_message
             MISSING_USERNAME_ERROR checkTelegramUsername
             sendTelegramNotification this username message = Returned r)
     ∧ (∀ e,
          (∀ arg, checkTelegramUsername arg = Thrown e) →
          ∃ msg,
            telegramTools.sendTelegramNotification_execute type_error_message
              MISSING_USERNAME_ERROR checkTelegramUsername
              sendTelegramNotification this username message
            = Returned (failure_record msg))
     ∧ (∀ e,
          (∀ arg, sendTelegramNotification arg = Thrown e) →
          ∃ msg,
            telegramTools.sendTelegramNotification_execute type_error_message
              MISSING_USERNAME_ERROR checkTelegramUsername
              sendTelegramNotification this username message
            = Returned (failure_record msg))
     ∧ (∀ e,
          telegramTools.sendTelegramNotification_try type_error_message
            MISSING_USERNAME_ERROR checkTelegramUsername
            sendTelegramNotification this username message = Thrown e →
          ∃ msg,
            telegramTools.sendTelegramNotification_execute type_error_message
              MISSING_USERNAME_ERROR checkTelegramUsername
              sendTelegramNotification this username message
            = Returned (failure_record msg)))
  ∧ ((∃ r, bundleTools.analyzeBundles_execute type_error_message
             analyzeMintBundles mintAddress = Returned r)
     ∧ (∀ e,
          analyzeMintBundles
            (VObject [("mintAddress", VString mintAddress);
                      ("minSlotTransactions", VNumber 2%float)]) = Thrown e →
          ∃ msg,
            bundleTools.analyzeBundles_execute type_error_message
              analyzeMintBundles mintAddress
            = Returned (failure_record msg)
            ∧ (∀ m, e = VError m → msg = m)
            ∧ (Js.instanceof_Error e = false →
               msg = "Failed to analyze bundles"))).
Proof.
  split; [|split].
  - (* verifyTelegramSetup *)
    split; [|split].
    + unfold telegramTools.verifyTelegramSetup_execute.
      destruct (guarded_returns type_error_message "Verification failed"
                  (telegramTools.verifyTelegramSetup_try type_error_message
                     verifyTelegramSetupAction username)) as (r & Hr & _).
      by exists r.
    + intros e He.
      unfold telegramTools.verifyTelegramSetup_execute,
        telegramTools.verifyTelegramSetup_try.
      rewrite He. cbn -[Js.catch_result].
      apply catch_result_failure.
    + intros e He. unfold telegramTools.verifyTelegramSetup_execute.
      by eapply guarded_thrown.
  - (* sendTelegramNotification *)
    split; [|split; [|split]].
    + unfold telegramTools.sendTelegramNotification_execute.
      destruct (guarded_returns type_error_message
                  "Failed to send notification"
                  (telegramTools.sendTelegramNotification_try
                     type_error_message MISSING_USERNAME_ERROR
                     checkTelegramUsername sendTelegramNotification
                     this username message)) as (r & Hr & _).
      by exists r.
    + intros e He. unfold telegramTools.sendTelegramNotification_execute.
      assert (∃ e', telegramTools.sendTelegramNotification_try
                      type_error_message MISSING_USERNAME_ERROR
                      checkTelegramUsername sendTelegramNotification
                      this username message = Thrown e') as [e' Hthrown].
      { unfold telegramTools.sendTelegramNotification_try.
        destruct (Js.get type_error_message this "userId") as [userId|e1];
          cbn; [|by eexists].
        rewrite He. by eexists. }
      by eapply guarded_thrown.
    + intros e He. unfold telegramTools.sendTelegramNotification_execute.
      destruct (send_try_when_action_throws type_error_message
                  MISSING_USERNAME_ERROR checkTelegramUsername
                  sendTelegramNotification this username message e He)
        as [[e' Hthrown]|Hmissing].
      * by eapply guarded_thrown.
      * rewrite Hmissing. cbn. by eexists.
    + intros e He. unfold telegramTools.sendTelegramNotification_execute.
      by eapply guarded_thrown.
  - (* analyzeBundles *)
    split.
    + unfold bundleTools.analyzeBundles_execute.
      destruct (guarded_returns type_error_message
                  "Failed to analyze bundles"
                  (bundleTools.analyzeBundles_try analyzeMintBundles
                     mintAddress)) as (r & Hr & _).
      by exists r.
    + intros e He.
      unfold bundleTools.analyzeBundles_execute,
        bundleTools.analyzeBundles_try.
      rewrite He. cbn -[Js.catch_result].
      apply catch_result_failure.
Qed.

Lemma tools_execute_never_throw_witness :
  ∃ msg,
    telegramTools.verifyTelegramSetup_execute
      (λ _ k, "Cannot read properties of undefined")
      (λ _, Thrown (VError "network down")) (Some "alice")
    = Returned (failure_record msg)
    ∧ (∀ m, VError "network down" = VError m → msg = m)
    ∧ (Js.instanceof_Error (VError "network down") = false →
       msg = "Verification failed").
Proof.
  apply (proj1 (proj2 (proj1
           (tools_execute_never_throw
              (λ _ k, "Cannot read properties of undefined")
              "MISSING_USERNAME"
              (λ _, Thrown (VError "network down"))
              (λ _, Returned VUndefined)
              (λ _, Returned VUndefined)
              (λ _, Returned VNull)
              VUndefined (Some "alice") "hello" "mint"))) 
           (VError "network down")).
  reflexivity.
Defined.

(** ** The tools on concrete runs *)

Example verify_setup_verified :
  telegramTools.verifyTelegramSetup_execute (λ _ _, "TypeError")
    (λ _, Returned
            (VObject [("data",
                       VObject [("success", VBool true);
                                ("data", VObject [("botId", VString "bot")])])]))
    None
  = Returned (VObject [("success", VBool true);
                       ("data", VString "Telegram setup verified")]).
Proof. reflexivity. Qed.

Example verify_bot_not_started :
  telegramTools.verifyTelegramSetup_execute (λ _ _, "TypeError")
    (λ _, Returned
            (VObject [("data",
                       VObject [("success", VBool false);
                                ("error", VString "BOT_NOT_STARTED");
                                ("data", VObject [("botId", VString "bot")])])]))
    (Some "alice")
  = Returned (VObject [("success", VBool false);
                       ("error", VString "BOT_NOT_STARTED");
                       ("botId", VString "bot")]).
Proof. reflexivity. Qed.

Example verify_no_response :
  telegramTools.verifyTelegramSetup_execute (λ _ _, "TypeError")
    (λ _, Returned VUndefined) None
  = Returned (failure_record "No response from Telegram action").
Proof. reflexivity. Qed.

Example verify_thrown_string :
  telegramTools.verifyTelegramSetup_execute (λ _ _, "TypeError")
    (λ _, Thrown (VString "boom")) None
  = Returned (failure_record "Verification failed").
Proof. reflexivity. Qed.

Example send_uses_saved_username :
  telegramTools.sendTelegramNotification_execute (λ _ _, "TypeError")
    "MISSING_USERNAME"
    (λ _, Returned (VObject [("username", VString "alice")]))
    (λ arg,
       Returned
         (VObject [("data",
                    VObject [("data",
                              VObject [("success", VBool true);
                                       ("botId",
                                        Js.field
                                          match arg with
                                          | VObject fields => fields
                                          | _ => []
                                          end "username")])])]))
    (VObject [("userId", VNull)]) None "hello"
  = Returned (VObject [("success", VBool true);
                       ("data", VString "Notification sent successfully");
                       ("noFollowUp", VBool true);
                       ("botId", VString "alice")]).
Proof. reflexivity. Qed.

Example send_missing_username :
  telegramTools.sendTelegramNotification_execute (λ _ _, "TypeError")
    "MISSING_USERNAME"
    (λ _, Returned (VObject []))
    (λ _, Thrown (VError "unreachable"))
    (VObject [("userId", VNull)]) (Some "") "hello"
  = Returned (failure_record "MISSING_USERNAME").
Proof. reflexivity. Qed.

Example send_detached_receiver :
  telegramTools.sendTelegramNotification_execute
    (λ _ k, "Cannot read properties of undefined: " +:+ k)
    "MISSING_USERNAME"
    (λ _, Returned (VObject [("username", VString "alice")]))
    (λ _, Returned VUndefined)
    VUndefined (Some "bob") "hello"
  = Returned
      (failure_record "Cannot read properties of undefined: userId").
Proof. reflexivity. Qed.

Example send_action_reports_failure :
  telegramTools.sendTelegramNotification_execute (λ _ _, "TypeError")
    "MISSING_USERNAME"
    (λ _, Returned (VObject []))
    (λ _, Returned (VObject [("data", VObject [("data", VObject [])])]))
    (VObject [("userId", VString "u1")]) (Some "bob") "hello"
  = Returned (VObject [("success", VUndefined); ("error", VUndefined);
                       ("botId", VUndefined)]).
Proof. reflexivity. Qed.

Example analyze_no_analysis :
  bundleTools.analyzeBundles_execute (λ _ _, "TypeError")
    (λ _, Returned VNull) "mint"
  = Returned (failure_record "Failed to analyze bundles").
Proof. reflexivity. Qed.

Example analyze_success :
  bundleTools.analyzeBundles_execute (λ _ _, "TypeError")
    (λ _, Returned (VObject [("totalBundles", VNumber 3%float)])) "mint"
  = Returned (VObject [("success", VBool true);
                       ("data",
                        VObject [("totalBundles", VNumber 3%float)])]).
Proof. reflexivity. Qed.

Example analyze_thrown_error :
  bundleTools.analyzeBundles_execute (λ _ _, "TypeError")
    (λ _, Thrown (VError "rpc timeout")) "mint"
  = Returned (failure_record "rpc timeout").
Proof. reflexivity. Qed.

(** ** The selector on the specification's scenarios *)

Example scenario_A :
  getToolsFromOrchestrator (Message := unit) (Err := unit)
    (λ _, Returned (mkGenerated [] 7)) None None
  = Returned (mkResult 7 None).
Proof. reflexivity. Qed.

Example scenario_B :
  getToolsFromOrchestrator (Message := unit) (Err := unit)
    (λ _, Returned (mkGenerated ["analyzeBundles"] 7)) None None
  = Returned
      (mkResult 7
         (Some ["searchToken"; "askForConfirmation"; "analyzeBundles"])).
Proof. reflexivity. Qed.

Example scenario_C :
  getToolsFromOrchestrator (Message := unit) (Err := unit)
    (λ _, Returned (mkGenerated ["analyzeBundles"] 7)) None (Some "yes")
  = Returned (mkResult 7 (Some ["searchToken"; "analyzeBundles"])).
Proof. reflexivity. Qed.

Example scenario_D :
  getToolsFromOrchestrator (Message := unit) (Err := unit)
    (λ _, Returned (mkGenerated ["searchToken"; "searchToken"] 7)) None None
  = Returned (mkResult 7 (Some ["searchToken"; "askForConfirmation"])).
Proof. reflexivity. Qed.

Example classifier_failure_propagates :
  getToolsFromOrchestrator (Message := unit) (LanguageModelUsage := nat)
    (λ _, Thrown "schema violation") None None
  = Thrown "schema violation".
Proof. reflexivity. Qed.

Example insertion_order_kept :
  augment (Some "yes") ["b"; "a"; "searchToken"; "b"]
  = ["searchToken"; "b"; "a"].
Proof. reflexivity. Qed.

(** * Further properties of the selector *)

Module JsSetOrder.

Lemma has_app (s1 s2 : JsSet.t) (x : string) :
  JsSet.has (s1 ++ s2) x = JsSet.has s1 x || JsSet.has s2 x.
Proof. unfold JsSet.has. apply existsb_app. Qed.

Lemma add_all_snoc (s : JsSet.t) (l : list string) (x : string) :
  JsSet.add_all s (l ++ [x]) = JsSet.add (JsSet.add_all s l) x.
Proof. by rewrite JsSetFacts.add_all_app. Qed.

(** Adding to a set keeps the set in front and appends the new elements in
    the order of their first occurrence. *)
Lemma add_all_split (s : JsSet.t) (l : list string) :
  JsSet.add_all s l
  = s ++ JsSet.add_all JsSet.empty
           (List.filter (λ t, negb (JsSet.has s t)) l).
Proof.
  induction l as [|x l IH] using rev_ind.
  - cbn. by rewrite app_nil_r.
  - rewrite add_all_snoc, IH, List.filter_app. cbn [List.filter].
    unfold JsSet.add at 1. rewrite has_app.
    destruct (JsSet.has s x) eqn:Hs; cbn.
    + by rewrite app_nil_r.
    + rewrite add_all_snoc. unfold JsSet.add.
      destruct (JsSet.has (JsSet.add_all _ _) x); [done|].
      by rewrite <- app_assoc.
Qed.

Lemma length_add_all_le (l : list string) :
  ∀ s : JsSet.t, (length (JsSet.add_all s l) ≤ length s + length l)%nat.
Proof.
  induction l as [|x l IH]; intros s; [cbn; lia|].
  rewrite JsSetFacts.add_all_cons. etrans; [apply IH|].
  unfold JsSet.add. destruct (JsSet.has s x); [cbn; lia|].
  rewrite length_app. cbn. lia.
Qed.

End JsSetOrder.

Lemma length_confirmationTools (conf : option string) :
  (1 ≤ length (confirmationTools conf) ≤ 2)%nat.
Proof.
  unfold confirmationTools. destruct (opt_string_truthy conf); cbn; lia.
Qed.

(** X1: the selector fails exactly when the classification call fails, and
    with the very value that call threw; it raises nothing of its own and
    swallows nothing. *)
Theorem selector_throws_iff_classifier_throws
    {Message LanguageModelUsage Err : Type}
    (generateObject : option (list Message) →
                      completion Err (GenerateObjectResult LanguageModelUsage))
    (messages : option (list Message))
    (confirmationResultMessage : option string) (e : Err) :
  getToolsFromOrchestrator generateObject messages confirmationResultMessage
  = Thrown e
  ↔ generateObject messages = Thrown e.
Proof.
  unfold getToolsFromOrchestrator.
  destruct (generateObject messages) as [[candidates u]|e']; cbn.
  - destruct (length candidates =? 0)%nat; split; discriminate.
  - split; intros [= ->]; reflexivity.
Qed.

(** X2: the order of the returned array.  For non-empty candidates it is the
    baseline, in its own order, followed by the candidates that are not
    baseline tools, each once, in the order of their first occurrence. *)
Theorem selector_result_order
    {Message LanguageModelUsage Err : Type}
    (generateObject : option (list Message) →
                      completion Err (GenerateObjectResult LanguageModelUsage))
    (messages : option (list Message))
    (confirmationResultMessage : option string)
    (candidates : list string) (u : LanguageModelUsage) :
  generateObject messages = Returned (mkGenerated candidates u) →
  candidates ≠ [] →
  getToolsFromOrchestrator generateObject messages confirmationResultMessage
  = Returned
      (mkResult u
         (Some
            (confirmationTools confirmationResultMessage
             ++ JsSet.from_iterable
                  (List.filter
                     (λ t, negb (JsSet.has
                                   (confirmationTools confirmationResultMessage)
                                   t))
                     candidates)))).
Proof.
  intros Hgen Hne. rewrite (selector_nonempty _ _ _ u candidates Hgen Hne).
  do 3 f_equal. rewrite augment_unfold. unfold JsSet.from_iterable.
  rewrite JsSetFacts.add_all_app.
  rewrite (JsSetFacts.add_all_fresh (confirmationTools _) JsSet.empty)
    by apply NoDup_confirmationTools.
  apply JsSetOrder.add_all_split.
Qed.

Lemma selector_result_order_witness :
  getToolsFromOrchestrator (Message := unit) (Err := unit)
    (λ _, Returned
            (mkGenerated ["b"; "searchToken"; "a"; "b"] 7)) None (Some "yes")
  = Returned
      (mkResult 7
         (Some
            (confirmationTools (Some "yes")
             ++ JsSet.from_iterable
                  (List.filter
                     (λ t, negb (JsSet.has (confirmationTools (Some "yes")) t))
                     ["b"; "searchToken"; "a"; "b"])))).
Proof.
  apply (selector_result_order (Message := unit) (Err := unit)
           (λ _, Returned (mkGenerated ["b"; "searchToken"; "a"; "b"] 7))
           None (Some "yes") ["b"; "searchToken"; "a"; "b"] 7).
  - reflexivity.
  - discriminate.
Defined.

(** X3: the size of the returned array.  For non-empty candidates it has at
    least the baseline's length and at most the baseline's plus the
    candidates': between 1 and 2 + the number of candidates. *)
Theorem selector_result_size
    {Message LanguageModelUsage Err : Type}
    (generateObject : option (list Message) →
                      completion Err (GenerateObjectResult LanguageModelUsage))
    (messages : option (list Message))
    (confirmationResultMessage : option string)
    (candidates : list string) (u : LanguageModelUsage) :
  generateObject messages = Returned (mkGenerated candidates u) →
  candidates ≠ [] →
  ∃ tools : list string,
    getToolsFromOrchestrator generateObject messages confirmationResultMessage
    = Returned (mkResult u (Some tools))
    ∧ (length (confirmationTools confirmationResultMessage) ≤ length tools)%nat
    ∧ (length tools
       ≤ length (confirmationTools confirmationResultMessage)
         + length candidates)%nat
    ∧ (1 ≤ length tools ≤ 2 + length candidates)%nat.
Proof.
  intros Hgen Hne. exists (augment confirmationResultMessage candidates).
  split; [by apply selector_nonempty|].
  pose proof (length_confirmationTools confirmationResultMessage) as Hbase.
  assert (length (confirmationTools confirmationResultMessage)
          ≤ length (augment confirmationResultMessage candidates))%nat
    as Hlow.
  { destruct (augment_baseline_first confirmationResultMessage candidates)
      as [rest ->]. rewrite length_app. lia. }
  assert (length (augment confirmationResultMessage candidates)
          ≤ length (confirmationTools confirmationResultMessage)
            + length candidates)%nat as Hhigh.
  { rewrite augment_unfold. unfold JsSet.from_iterable.
    etrans; [apply JsSetOrder.length_add_all_le|].
    rewrite length_app. cbn. lia. }
  lia.
Qed.

Lemma selector_result_size_witness :
  ∃ tools : list string,
    getToolsFromOrchestrator (Message := unit) (Err := unit)
      (λ _, Returned (mkGenerated ["a"; "a"; "searchToken"] 7)) None None
    = Returned (mkResult 7 (Some tools))
    ∧ (length (confirmationTools None) ≤ length tools)%nat
    ∧ (length tools
       ≤ length (confirmationTools None)
         + length ["a"; "a"; "searchToken"])%nat
    ∧ (1 ≤ length tools ≤ 2 + length ["a"; "a"; "searchToken"])%nat.
Proof.
  apply (selector_result_size (Message := unit) (Err := unit)
           (λ _, Returned (mkGenerated ["a"; "a"; "searchToken"] 7))
           None None ["a"; "a"; "searchToken"] 7).
  - reflexivity.
  - discriminate.
Defined.

(** X4: only the set of candidates matters, up to order.  Two runs with the
    same signal whose candidate arrays have the same elements, in any order
    and with any repetitions, return arrays that are permutations of each
    other. *)
Theorem selector_result_permutation
    {Message LanguageModelUsage Err : Type}
    (generateObject1 generateObject2 :
       option (list Message) →
       completion Err (GenerateObjectResult LanguageModelUsage))
    (messages1 messages2 : option (list Message))
    (confirmationResultMessage : option string)
    (candidates1 candidates2 : list string) (u1 u2 : LanguageModelUsage) :
  generateObject1 messages1 = Returned (mkGenerated candidates1 u1) →
  generateObject2 messages2 = Returned (mkGenerated candidates2 u2) →
  candidates1 ≠ [] →
  (∀ t, t ∈ candidates1 ↔ t ∈ candidates2) →
  ∃ tools1 tools2 : list string,
    getToolsFromOrchestrator generateObject1 messages1
      confirmationResultMessage
    = Returned (mkResult u1 (Some tools1))
    ∧ getToolsFromOrchestrator generateObject2 messages2
        confirmationResultMessage
      = Returned (mkResult u2 (Some tools2))
    ∧ tools1 ≡ₚ tools2
    ∧ length tools1 = length tools2.
Proof.
  intros Hgen1 Hgen2 Hne1 Hsame.
  assert (candidates2 ≠ []) as Hne2.
  { destruct candidates1 as [|c cs]; [done|]. intros ->.
    apply (not_elem_of_nil c), Hsame. by left. }
  exists (augment confirmationResultMessage candidates1),
    (augment confirmationResultMessage candidates2).
  split; [by apply selector_nonempty|].
  split; [by apply selector_nonempty|].
  assert (augment confirmationResultMessage candidates1
          ≡ₚ augment confirmationResultMessage candidates2) as Hperm.
  { apply NoDup_Permutation; [apply NoDup_augment..|].
    intros t. rewrite !elem_of_augment, Hsame. tauto. }
  split; [done|]. by rewrite Hperm.
Qed.

Lemma selector_result_permutation_witness :
  ∃ tools1 tools2 : list string,
    getToolsFromOrchestrator (Message := unit) (Err := unit)
      (λ _, Returned (mkGenerated ["a"; "b"; "a"] 7)) None None
    = Returned (mkResult 7 (Some tools1))
    ∧ getToolsFromOrchestrator (Message := unit) (Err := unit)
        (λ _, Returned (mkGenerated ["b"; "a"] 9)) (Some []) None
      = Returned (mkResult 9 (Some tools2))
    ∧ tools1 ≡ₚ tools2
    ∧ length tools1 = length tools2.
Proof.
  apply (selector_result_permutation (Message := unit) (Err := unit)
           (λ _, Returned (mkGenerated ["a"; "b"; "a"] 7))
           (λ _, Returned (mkGenerated ["b"; "a"] 9))
           None (Some []) None ["a"; "b"; "a"] ["b"; "a"] 7 9).
  - reflexivity.
  - reflexivity.
  - discriminate.
  - intros t. rewrite !elem_of_cons, !elem_of_nil. tauto.
Defined.

(** X5: candidates that are pairwise distinct and propose no baseline tool
    come back untouched: the result is the baseline followed by the
    candidate array as the classifier gave it. *)
Theorem selector_keeps_clean_candidates
    {Message LanguageModelUsage Err : Type}
    (generateObject : option (list Message) →
                      completion Err (GenerateObjectResult LanguageModelUsage))
    (messages : option (list Message))
    (confirmationResultMessage : option string)
    (candidates : list string) (u : LanguageModelUsage) :
  generateObject messages = Returned (mkGenerated candidates u) →
  candidates ≠ [] →
  NoDup candidates →
  (∀ t, t ∈ candidates → t ∉ confirmationTools confirmationResultMessage) →
  getToolsFromOrchestrator generateObject messages confirmationResultMessage
  = Returned
      (mkResult u
         (Some (confirmationTools confirmationResultMessage ++ candidates))).
Proof.
  intros Hgen Hne Hnd Hfresh.
  rewrite (selector_nonempty _ _ _ u candidates Hgen Hne).
  do 3 f_equal. rewrite augment_unfold. unfold JsSet.from_iterable.
  apply (JsSetFacts.add_all_fresh _ JsSet.empty). cbn.
  apply NoDup_app. split; [apply NoDup_confirmationTools|].
  split; [|done]. intros t Hbase Hcand. by apply (Hfresh t).
Qed.

Lemma selector_keeps_clean_candidates_witness :
  getToolsFromOrchestrator (Message := unit) (Err := unit)
    (λ _, Returned (mkGenerated ["b"; "a"] 7)) None None
  = Returned (mkResult 7 (Some (confirmationTools None ++ ["b"; "a"]))).
Proof.
  apply (selector_keeps_clean_candidates (Message := unit) (Err := unit)
           (λ _, Returned (mkGenerated ["b"; "a"] 7)) None None
           ["b"; "a"] 7).
  - reflexivity.
  - discriminate.
  - apply NoDup_cons. split; [|apply NoDup_singleton].
    intros Hin. apply list_elem_of_singleton in Hin. discriminate.
  - intros t Ht Hbase. cbn in Hbase.
    rewrite !elem_of_cons, elem_of_nil in Ht, Hbase.
    destruct Ht as [->|[->|[]]];
      destruct Hbase as [Hb|[Hb|[]]]; discriminate.
Defined.

(** X6: what the confirmation signal changes.  For the same non-empty
    candidates, every tool returned with a signal is also returned without
    one, and the only tool that may be returned without a signal but not
    with one is ["askForConfirmation"]. *)
Theorem selector_signal_only_drops_confirmation
    {Message LanguageModelUsage Err : Type}
    (generateObject : option (list Message) →
                      completion Err (GenerateObjectResult LanguageModelUsage))
    (messages : option (list Message))
    (signal : option string)
    (candidates : list string) (u : LanguageModelUsage) :
  generateObject messages = Returned (mkGenerated candidates u) →
  candidates ≠ [] →
  ∃ confirmed unconfirmed : list string,
    getToolsFromOrchestrator generateObject messages signal
    = Returned (mkResult u (Some confirmed))
    ∧ getToolsFromOrchestrator generateObject messages None
      = Returned (mkResult u (Some unconfirmed))
    ∧ (∀ t, t ∈ confirmed → t ∈ unconfirmed)
    ∧ (∀ t, t ∈ unconfirmed → t ∈ confirmed ∨ t = "askForConfirmation").
Proof.
  intros Hgen Hne.
  exists (augment signal candidates), (augment None candidates).
  split; [by apply selector_nonempty|].
  split; [by apply selector_nonempty|].
  split; intros t; rewrite !elem_of_augment;
    unfold confirmationTools; cbn; destruct (opt_string_truthy signal);
    rewrite ?elem_of_cons, ?elem_of_nil; tauto.
Qed.

Lemma selector_signal_only_drops_confirmation_witness :
  ∃ confirmed unconfirmed : list string,
    getToolsFromOrchestrator (Message := unit) (Err := unit)
      (λ _, Returned (mkGenerated ["analyzeBundles"] 7)) None (Some "yes")
    = Returned (mkResult 7 (Some confirmed))
    ∧ getToolsFromOrchestrator (Message := unit) (Err := unit)
        (λ _, Returned (mkGenerated ["analyzeBundles"] 7)) None None
      = Returned (mkResult 7 (Some unconfirmed))
    ∧ (∀ t, t ∈ confirmed → t ∈ unconfirmed)
    ∧ (∀ t, t ∈ unconfirmed → t ∈ confirmed ∨ t = "askForConfirmation").
Proof.
  apply (selector_signal_only_drops_confirmation
           (Message := unit) (Err := unit)
           (λ _, Returned (mkGenerated ["analyzeBundles"] 7))
           None (Some "yes") ["analyzeBundles"] 7).
  - reflexivity.
  - discriminate.
Defined.

(** X7: a classifier that proposes nothing but baseline tools adds nothing:
    the result is the baseline itself, however often and in whatever order
    the candidates repeat it. *)
Theorem selector_baseline_candidates_absorbed
    {Message LanguageModelUsage Err : Type}
    (generateObject : option (list Message) →
                      completion Err (GenerateObjectResult LanguageModelUsage))
    (messages : option (list Message))
    (confirmationResultMessage : option string)
    (candidates : list string) (u : LanguageModelUsage) :
  generateObject messages = Returned (mkGenerated candidates u) →
  candidates ≠ [] →
  (∀ t, t ∈ candidates → t ∈ confirmationTools confirmationResultMessage) →
  getToolsFromOrchestrator generateObject messages confirmationResultMessage
  = Returned (mkResult u (Some (confirmationTools confirmationResultMessage))).
Proof.
  intros Hgen Hne Hsub.
  rewrite (selector_nonempty _ _ _ u candidates Hgen Hne).
  do 3 f_equal. rewrite augment_unfold. unfold JsSet.from_iterable.
  rewrite JsSetFacts.add_all_app.
  rewrite (JsSetFacts.add_all_fresh (confirmationTools _) JsSet.empty)
    by apply NoDup_confirmationTools.
  by apply JsSetFacts.add_all_absorb.
Qed.

Lemma selector_baseline_candidates_absorbed_witness :
  getToolsFromOrchestrator (Message := unit) (Err := unit)
    (λ _, Returned
            (mkGenerated ["askForConfirmation"; "searchToken";
                          "askForConfirmation"] 7)) None None
  = Returned (mkResult 7 (Some (confirmationTools None))).
Proof.
  apply (selector_baseline_candidates_absorbed (Message := unit) (Err := unit)
           (λ _, Returned
                   (mkGenerated ["askForConfirmation"; "searchToken";
                                 "askForConfirmation"] 7))
           None None
           ["askForConfirmation"; "searchToken"; "askForConfirmation"] 7).
  - reflexivity.
  - discriminate.
  - intros t Ht. cbn. rewrite !elem_of_cons, elem_of_nil in Ht.
    rewrite !elem_of_cons. tauto.
Defined.

(** * Further properties of the tools *)

Section SendMore.

Variable type_error_message : value → string → string.
Variable MISSING_USERNAME_ERROR : string.

#[local] Abbreviation send_execute :=
  (telegramTools.sendTelegramNotification_execute type_error_message
     MISSING_USERNAME_ERROR).

(** X8: without a username, passed in or saved, the notification action is
    never called.  When the [username] argument is absent or empty and the
    username check returns a value whose [username] is falsy, [execute]
    returns [{ success: false, error: MISSING_USERNAME_ERROR }], whatever
    the notification action would have done. *)
Theorem send_without_username_skips_action
    (checkTelegramUsername : value → completion value value)
    (this : value) (username : option string) (message : string)
    (userId usernameCheck saved : value) :
  Js.get type_error_message this "userId" = Returned userId →
  checkTelegramUsername (Js.or userId VUndefined) = Returned usernameCheck →
  opt_string_truthy username = false →
  Js.get type_error_message usernameCheck "username" = Returned saved →
  Js.truthy saved = false →
  ∀ sendTelegramNotification : value → completion value value,
    send_execute checkTelegramUsername sendTelegramNotification
      this username message
    = Returned (failure_record MISSING_USERNAME_ERROR).
Proof.
  intros HuserId Hcheck Husername Hsaved Hfalsy action.
  unfold telegramTools.sendTelegramNotification_execute,
    telegramTools.sendTelegramNotification_try.
  rewrite HuserId. cbn [bind]. rewrite Hcheck. cbn [bind].
  rewrite Husername. cbn [negb bind]. rewrite Hsaved. cbn [bind].
  rewrite Hfalsy. reflexivity.
Qed.

(** X9: a username passed in wins over the saved one.  With a non-empty
    [username] argument the notification action is called with exactly
    [{ username, userId: this.userId || undefined, text: message }]: the
    result does not depend on what the username check returned, nor on how
    the action behaves on any other argument. *)
Theorem send_explicit_username_wins
    (checkTelegramUsername1 checkTelegramUsername2
       sendTelegramNotification1 sendTelegramNotification2 :
       value → completion value value)
    (this : value) (username message : string)
    (userId usernameCheck1 usernameCheck2 : value) :
  string_truthy username = true →
  Js.get type_error_message this "userId" = Returned userId →
  checkTelegramUsername1 (Js.or userId VUndefined) = Returned usernameCheck1 →
  checkTelegramUsername2 (Js.or userId VUndefined) = Returned usernameCheck2 →
  sendTelegramNotification1
    (VObject [("username", VString username);
              ("userId", Js.or userId VUndefined);
              ("text", VString message)])
  = sendTelegramNotification2
      (VObject [("username", VString username);
                ("userId", Js.or userId VUndefined);
                ("text", VString message)]) →
  send_execute checkTelegramUsername1 sendTelegramNotification1
    this (Some username) message
  = send_execute checkTelegramUsername2 sendTelegramNotification2
      this (Some username) message.
Proof.
  intros Htruthy HuserId Hcheck1 Hcheck2 Hsame.
  unfold telegramTools.sendTelegramNotification_execute,
    telegramTools.sendTelegramNotification_try.
  rewrite HuserId. cbn [bind]. rewrite Hcheck1, Hcheck2. cbn [bind].
  cbn [opt_string_truthy]. rewrite Htruthy. cbn [negb bind Js.of_opt_string].
  by rewrite Hsame.
Qed.

(** X10: falling back to the saved username.  When the [username] argument
    is absent or empty and the username check returns a non-empty string as
    [username], [execute] behaves as if that string had been passed in. *)
Theorem send_falls_back_to_saved_username
    (checkTelegramUsername sendTelegramNotification :
       value → completion value value)
    (this : value) (username : option string) (message saved : string)
    (userId usernameCheck : value) :
  opt_string_truthy username = false →
  Js.get type_error_message this "userId" = Returned userId →
  checkTelegramUsername (Js.or userId VUndefined) = Returned usernameCheck →
  Js.get type_error_message usernameCheck "username"
  = Returned (VString saved) →
  string_truthy saved = true →
  send_execute checkTelegramUsername sendTelegramNotification
    this username message
  = send_execute checkTelegramUsername sendTelegramNotification
      this (Some saved) message.
Proof.
  intros Husername HuserId Hcheck Hsaved Htruthy.
  unfold telegramTools.sendTelegramNotification_execute,
    telegramTools.sendTelegramNotification_try.
  rewrite HuserId. cbn [bind]. rewrite Hcheck. cbn [bind].
  rewrite Husername. cbn [opt_string_truthy]. rewrite Htruthy.
  cbn [negb bind]. rewrite Hsaved. cbn [bind Js.truthy].
  rewrite Htruthy. reflexivity.
Qed.

(** X11: a falsy [userId] on the receiver counts as none.  When the
    receiver's [userId] is [null], [undefined], empty or otherwise falsy,
    both actions get [undefined] as user id: [execute] behaves as on a
    receiver with no [userId] property at all. *)
Theorem send_falsy_user_id_is_undefined
    (checkTelegramUsername sendTelegramNotification :
       value → completion value value)
    (fields : list (string * value))
    (username : option string) (message : string) :
  Js.truthy (Js.field fields "userId") = false →
  send_execute checkTelegramUsername sendTelegramNotification
    (VObject fields) username message
  = send_execute checkTelegramUsername sendTelegramNotification
      (VObject []) username message.
Proof.
  intros Hfalsy.
  unfold telegramTools.sendTelegramNotification_execute,
    telegramTools.sendTelegramNotification_try.
  cbn [Js.get Js.field bind]. unfold Js.or. rewrite Hfalsy. reflexivity.
Qed.

End SendMore.

Lemma send_without_username_skips_action_witness :
  telegramTools.sendTelegramNotification_execute (λ _ _, "TypeError")
    "MISSING_USERNAME" (λ _, Returned (VObject []))
    (λ _, Thrown (VError "never called"))
    (VObject [("userId", VNull)]) (Some "") "hi"
  = Returned (failure_record "MISSING_USERNAME").
Proof.
  apply (send_without_username_skips_action (λ _ _, "TypeError")
           "MISSING_USERNAME" (λ _, Returned (VObject []))
           (VObject [("userId", VNull)]) (Some "") "hi"
           VNull (VObject []) VUndefined).
  - reflexivity.
  - reflexivity.
  - reflexivity.
  - reflexivity.
  - reflexivity.
Defined.

Lemma send_explicit_username_wins_witness :
  telegramTools.sendTelegramNotification_execute (λ _ _, "TypeError")
    "MISSING_USERNAME"
    (λ _, Returned (VObject [("username", VString "saved")]))
    (λ _, Returned VUndefined)
    (VObject [("userId", VString "u1")]) (Some "bob") "hi"
  = telegramTools.sendTelegramNotification_execute (λ _ _, "TypeError")
      "MISSING_USERNAME"
      (λ _, Returned VNull)
      (λ arg, Returned (Js.field match arg with
                                 | VObject fields => fields
                                 | _ => []
                                 end "reply"))
      (VObject [("userId", VString "u1")]) (Some "bob") "hi".
Proof.
  apply (send_explicit_username_wins (λ _ _, "TypeError") "MISSING_USERNAME"
           (λ _, Returned (VObject [("username", VString "saved")]))
           (λ _, Returned VNull)
           (λ _, Returned VUndefined)
           (λ arg, Returned (Js.field match arg with
                                      | VObject fields => fields
                                      | _ => []
                                      end "reply"))
           (VObject [("userId", VString "u1")]) "bob" "hi"
           (VString "u1") (VObject [("username", VString "saved")]) VNull).
  - reflexivity.
  - reflexivity.
  - reflexivity.
  - reflexivity.
  - reflexivity.
Defined.

Lemma send_falls_back_to_saved_username_witness :
  telegramTools.sendTelegramNotification_execute (λ _ _, "TypeError")
    "MISSING_USERNAME"
    (λ _, Returned (VObject [("username", VString "saved")]))
    (λ arg, Returned (VObject [("data", VObject [("data", arg)])]))
    (VObject [("userId", VString "u1")]) None "hi"
  = telegramTools.sendTelegramNotification_execute (λ _ _, "TypeError")
      "MISSING_USERNAME"
      (λ _, Returned (VObject [("username", VString "saved")]))
      (λ arg, Returned (VObject [("data", VObject [("data", arg)])]))
      (VObject [("userId", VString "u1")]) (Some "saved") "hi".
Proof.
  apply (send_falls_back_to_saved_username (λ _ _, "TypeError")
           "MISSING_USERNAME"
           (λ _, Returned (VObject [("username", VString "saved")]))
           (λ arg, Returned (VObject [("data", VObject [("data", arg)])]))
           (VObject [("userId", VString "u1")]) None "hi" "saved"
           (VString "u1") (VObject [("username", VString "saved")])).
  - reflexivity.
  - reflexivity.
  - reflexivity.
  - reflexivity.
  - reflexivity.
Defined.

Lemma send_falsy_user_id_is_undefined_witness :
  telegramTools.sendTelegramNotification_execute (λ _ _, "TypeError")
    "MISSING_USERNAME"
    (λ userId, Returned (VObject [("username", userId)]))
    (λ arg, Returned (VObject [("data", VObject [("data", arg)])]))
    (VObject [("userId", VNull)]) (Some "bob") "hi"
  = telegramTools.sendTelegramNotification_execute (λ _ _, "TypeError")
      "MISSING_USERNAME"
      (λ userId, Returned (VObject [("username", userId)]))
      (λ arg, Returned (VObject [("data", VObject [("data", arg)])]))
      (VObject []) (Some "bob") "hi".
Proof.
  apply (send_falsy_user_id_is_undefined (λ _ _, "TypeError")
           "MISSING_USERNAME"
           (λ userId, Returned (VObject [("username", userId)]))
           (λ arg, Returned (VObject [("data", VObject [("data", arg)])]))
           [("userId", VNull)] (Some "bob") "hi").
  reflexivity.
Defined.

(** ** What the renderers can receive *)

(** Runs a [try] block guarded by [Js.catch_result] along every path: each
    awaited call and property read either returns or throws, each test goes
    either way. *)
Ltac walk_paths :=
  repeat (cbn [bind try_catch negb];
          match goal with
          | |- context [bind ?c _] => destruct c eqn:?
          | |- context [if ?b then _ else _] => destruct b eqn:?
          end);
  cbn [bind try_catch negb].

Ltac caught_failure tem :=
  match goal with
  | |- context [Js.catch_result tem ?fallback ?e] =>
      let msg := fresh "msg" in
      let Hmsg := fresh "Hmsg" in
      destruct (catch_result_failure tem fallback e) as (msg & Hmsg & _);
      rewrite Hmsg
  end.



(** X14: [analyzeBundles.execute] returns either
    [{ success: true, data }] where [data] is the truthy analysis the action
    resolved to, or [{ success: false, error: msg }] with a string [msg]. *)
Theorem analyze_result_shapes
    (type_error_message : value → string → string)
    (analyzeMintBundles : value → completion value value)
    (mintAddress : string) :
  ∃ r : value,
    bundleTools.analyzeBundles_execute type_error_message analyzeMintBundles
      mintAddress = Returned r
    ∧ ((∃ analysis,
          analyzeMintBundles
            (VObject [("mintAddress", VString mintAddress);
                      ("minSlotTransactions", VNumber 2%float)])
          = Returned analysis
          ∧ Js.truthy analysis = true
          ∧ r = VObject [("success", VBool true); ("data", analysis)])
       ∨ (∃ msg, r = failure_record msg)).
Proof.
  unfold bundleTools.analyzeBundles_execute, bundleTools.analyzeBundles_try.
  destruct (analyzeMintBundles _) as [analysis|e] eqn:Haction; cbn [bind].
  - destruct (Js.truthy analysis) eqn:Htruthy; cbn [negb try_catch].
    + eexists. split; [reflexivity|]. left. by exists analysis.
    + eexists. split; [reflexivity|]. right. by eexists.
  - cbn [try_catch]. caught_failure type_error_message.
    eexists. split; [reflexivity|]. right. by eexists.
Qed.

(** X15: a reply without inner data is "no response".  When the setup
    action resolves to a value whose [data?.data] is falsy,
    [verifyTelegramSetup.execute] returns
    [{ success: false, error: 'No response from Telegram action' }],
    whatever [success] and [error] the reply carried. *)
Theorem verify_reply_without_inner_data
    (type_error_message : value → string → string)
    (verifyTelegramSetupAction : value → completion value value)
    (username : option string) (response data inner : value) :
  verifyTelegramSetupAction
    (VObject [("username", Js.of_opt_string username)]) = Returned response →
  Js.get_opt type_error_message response "data" = Returned data →
  Js.get_opt type_error_message data "data" = Returned inner →
  Js.truthy inner = false →
  telegramTools.verifyTelegramSetup_execute type_error_message
    verifyTelegramSetupAction username
  = Returned (failure_record "No response from Telegram action").
Proof.
  intros Haction Hdata Hinner Hfalsy.
  unfold telegramTools.verifyTelegramSetup_execute,
    telegramTools.verifyTelegramSetup_try.
  rewrite Haction. cbn [bind]. rewrite Hdata. cbn [bind].
  rewrite Hinner. cbn [bind]. rewrite Hfalsy. reflexivity.
Qed.

Lemma verify_reply_without_inner_data_witness :
  telegramTools.verifyTelegramSetup_execute (λ _ _, "TypeError")
    (λ _, Returned
            (VObject [("data",
                       VObject [("success", VBool false);
                                ("error", VString "BOT_NOT_STARTED")])]))
    (Some "alice")
  = Returned (failure_record "No response from Telegram action").
Proof.
  apply (verify_reply_without_inner_data (λ _ _, "TypeError")
           (λ _, Returned
                   (VObject [("data",
                              VObject [("success", VBool false);
                                       ("error",
                                        VString "BOT_NOT_STARTED")])]))
           (Some "alice")
           (VObject [("data",
                      VObject [("success", VBool false);
                               ("error", VString "BOT_NOT_STARTED")])])
           (VObject [("success", VBool false);
                     ("error", VString "BOT_NOT_STARTED")])
           VUndefined).
  - reflexivity.
  - reflexivity.
  - reflexivity.
  - reflexivity.
Defined.

(** ** Rendering what [execute] returned *)

Lemma verify_execute_returns_object
    (type_error_message : value → string → string)
    (verifyTelegramSetupAction : value → completion value value)
    (username : option string) :
  ∃ fields,
    telegramTools.verifyTelegramSetup_execute type_error_message
      verifyTelegramSetupAction username = Returned (VObject fields).
Proof.
  unfold telegramTools.verifyTelegramSetup_execute,
    telegramTools.verifyTelegramSetup_try.
  walk_paths; try caught_failure type_error_message; by eexists.
Qed.

Lemma send_execute_returns_object
    (type_error_message : value → string → string)
    (MISSING_USERNAME_ERROR : string)
    (checkTelegramUsername sendTelegramNotification :
       value → completion value value)
    (this : value) (username : option string) (message : string) :
  ∃ fields,
    telegramTools.sendTelegramNotification_execute type_error_message
      MISSING_USERNAME_ERROR checkTelegramUsername sendTelegramNotification
      this username message = Returned (VObject fields).
Proof.
  unfold telegramTools.sendTelegramNotification_execute,
    telegramTools.sendTelegramNotification_try.
  walk_paths; try caught_failure type_error_message; by eexists.
Qed.


Section RenderFacts.

Variable type_error_message : value → string → string.
Variable engine_to_string : value → string.
Variable MISSING_USERNAME_ERROR : string.
Variable BOT_NOT_STARTED_ERROR : string.

#[local] Abbreviation verify_render :=
  (Render.verifyTelegramSetup_render type_error_message engine_to_string
     MISSING_USERNAME_ERROR BOT_NOT_STARTED_ERROR).
#[local] Abbreviation send_render :=
  (Render.sendTelegramNotification_render type_error_message engine_to_string
     MISSING_USERNAME_ERROR BOT_NOT_STARTED_ERROR).

Lemma strict_eq_string_spec (v : value) (s : string) :
  Render.strict_eq_string v s = true ↔ v = VString s.
Proof.
  destruct v; cbn; try (split; [discriminate|by intros [=]]).
  rewrite String.eqb_eq. split; [by intros ->|by intros [= ->]].
Qed.

Lemma strict_eq_string_ne (s1 s2 : string) :
  s1 ≠ s2 → Render.strict_eq_string (VString s1) s2 = false.
Proof. intros Hne. cbn. by apply String.eqb_neq. Qed.


#[local] Abbreviation missing_username_card :=
  (JsxElement "Card" [("className", "bg-card p-6")]
     [JsxElement "h2"
        [("className", "mb-1 text-xl font-semibold text-card-foreground")]
        [JsxText "Missing Telegram Username"];
      JsxElement "p" [("className", "text-sm text-muted-foreground")]
        [JsxText "Please provide a Telegram username."]]).

#[local] Abbreviation error_card error :=
  (JsxElement "Card" [("className", "bg-card p-6")]
     [JsxElement "h2"
        [("className", "mb-1 text-xl font-semibold text-destructive")]
        [JsxText "Error"];
      JsxElement "p" [("className", "text-sm text-muted-foreground")]
        [JsxExpr error]]).

#[local] Abbreviation success_card title message :=
  (JsxElement "Card" [("className", "bg-card p-6")]
     [JsxElement "h2"
        [("className", "mb-1 text-xl font-semibold text-card-foreground")]
        [JsxExpr (VString title)];
      JsxElement "p" [("className", "text-sm text-muted-foreground")]
        [JsxExpr (VString message)]]).

#[local] Abbreviation bot_not_started_card href botId :=
  (JsxElement "Card" [("className", "bg-card p-6")]
     [JsxElement "h2"
        [("className", "mb-1 text-xl font-semibold text-card-foreground")]
        [JsxText "Bot Not Started"];
      JsxElement "div"
        [("className", "space-y-3 text-sm text-muted-foreground")]
        [JsxElement "p" []
           [JsxText
              "You need to start the bot before using Telegram notifications."];
         JsxElement "p" [("className", "flex items-center gap-1")]
           [JsxElement "span" [] [JsxText "Click here to start:"];
            JsxElement "a"
              [("href", href);
               ("target", "_blank");
               ("rel", "noopener noreferrer");
               ("className",
                "inline-flex items-center rounded-md font-medium underline hover:text-primary")]
              [JsxText "@"; JsxExpr botId;
               JsxElement "ExternalLink"
                 [("className", "ml-1 inline-block h-3 w-3")] []]]]]).

Lemma render_failure_record (msg title message : string) :
  Render.renderTelegramResponse engine_to_string MISSING_USERNAME_ERROR
    BOT_NOT_STARTED_ERROR (VBool false) (VString msg) VUndefined
    title message
  = if String.eqb msg MISSING_USERNAME_ERROR then missing_username_card
    else if String.eqb msg BOT_NOT_STARTED_ERROR
         then bot_not_started_card "https://t.me/undefined" VUndefined
         else error_card (VString msg).
Proof.
  unfold Render.renderTelegramResponse. cbn.
  by destruct (String.eqb msg MISSING_USERNAME_ERROR),
    (String.eqb msg BOT_NOT_STARTED_ERROR).
Qed.


(** X18: what the user sees when no username is known.  When the
    [username] argument is absent or empty and the username check returns a
    value whose [username] is falsy, the rendered result of
    [sendTelegramNotification] is the "Missing Telegram Username" card. *)
Theorem send_missing_username_rendered
    (checkTelegramUsername sendTelegramNotification :
       value → completion value value)
    (this : value) (username : option string) (message : string)
    (userId usernameCheck saved : value) :
  Js.get type_error_message this "userId" = Returned userId →
  checkTelegramUsername (Js.or userId VUndefined) = Returned usernameCheck →
  opt_string_truthy username = false →
  Js.get type_error_message usernameCheck "username" = Returned saved →
  Js.truthy saved = false →
  bind (telegramTools.sendTelegramNotification_execute type_error_message
          MISSING_USERNAME_ERROR checkTelegramUsername
          sendTelegramNotification this username message)
       send_render
  = Returned missing_username_card.
Proof.
  intros HuserId Hcheck Husername Hsaved Hfalsy.
  unfold telegramTools.sendTelegramNotification_execute,
    telegramTools.sendTelegramNotification_try.
  rewrite HuserId. cbn [bind]. rewrite Hcheck. cbn [bind].
  rewrite Husername. cbn [negb bind]. rewrite Hsaved. cbn [bind].
  rewrite Hfalsy. cbn [negb try_catch bind].
  unfold Render.sendTelegramNotification_render, failure_record.
  cbn [Js.get Js.field bind String.eqb Ascii.eqb Bool.eqb].
  f_equal. etrans; [apply render_failure_record|].
  by rewrite String.eqb_refl.
Qed.



End RenderFacts.


Lemma send_missing_username_rendered_witness :
  bind (telegramTools.sendTelegramNotification_execute (λ _ _, "TypeError")
          "MISSING_USERNAME" (λ _, Returned (VObject []))
          (λ _, Thrown (VError "never called"))
          (VObject [("userId", VNull)]) None "hi")
       (Render.sendTelegramNotification_render (λ _ _, "TypeError")
          (λ _, "[object Object]") "MISSING_USERNAME" "BOT_NOT_STARTED")
  = Returned
      (JsxElement "Card" [("className", "bg-card p-6")]
         [JsxElement "h2"
            [("className", "mb-1 text-xl font-semibold text-card-foreground")]
            [JsxText "Missing Telegram Username"];
          JsxElement "p" [("className", "text-sm text-muted-foreground")]
            [JsxText "Please provide a Telegram username."]]).
Proof.
  apply (send_missing_username_rendered (λ _ _, "TypeError")
           (λ _, "[object Object]") "MISSING_USERNAME" "BOT_NOT_STARTED"
           (λ _, Returned (VObject []))
           (λ _, Thrown (VError "never called"))
           (VObject [("userId", VNull)]) None "hi"
           VNull (VObject []) VUndefined).
  - reflexivity.
  - reflexivity.
  - reflexivity.
  - reflexivity.
  - reflexivity.
Defined.



Section RenderMore.

Variable type_error_message : value → string → string.
Variable engine_to_string : value → string.
Variable MISSING_USERNAME_ERROR : string.
Variable BOT_NOT_STARTED_ERROR : string.

(** X21: success hides everything else.  When [success] is truthy,
    [renderTelegramResponse] builds the success card from the title and the
    message alone: an [error] or [botId] on the result changes nothing, even
    an [error] equal to one of the two error constants. *)
Theorem render_success_ignores_error
    (success error botId : value) (successTitle successMessage : string) :
  Js.truthy success = true →
  Render.renderTelegramResponse engine_to_string MISSING_USERNAME_ERROR
    BOT_NOT_STARTED_ERROR success error botId successTitle successMessage
  = Render.renderTelegramResponse engine_to_string MISSING_USERNAME_ERROR
      BOT_NOT_STARTED_ERROR (VBool true) VUndefined VUndefined
      successTitle successMessage
  ∧ ∃ rest,
      Render.renderTelegramResponse engine_to_string MISSING_USERNAME_ERROR
        BOT_NOT_STARTED_ERROR success error botId successTitle successMessage
      = JsxElement "Card" [("className", "bg-card p-6")]
          [JsxElement "h2"
             [("className", "mb-1 text-xl font-semibold text-card-foreground")]
             [JsxExpr (VString successTitle)];
           rest].
Proof.
  intros Htruthy. unfold Render.renderTelegramResponse.
  rewrite Htruthy. cbn [negb andb Js.truthy]. split; [reflexivity|].
  by eexists.
Qed.

(** X22: rendering what [analyzeBundles.execute] returned.  The result is
    either the summary of the truthy analysis the action resolved to, or the
    error panel "Error: msg" with a string [msg]; the "No bundle data
    available" panel is never reached from [execute], and the renderer's
    own property reads never throw on it. *)
Theorem analyze_render_after_execute
    (analysis_view : value → completion value jsx)
    (analyzeMintBundles : value → completion value value)
    (mintAddress : string) :
  ∃ r : value,
    bundleTools.analyzeBundles_execute type_error_message analyzeMintBundles
      mintAddress = Returned r
    ∧ ((∃ analysis,
          analyzeMintBundles
            (VObject [("mintAddress", VString mintAddress);
                      ("minSlotTransactions", VNumber 2%float)])
          = Returned analysis
          ∧ Js.truthy analysis = true
          ∧ Render.analyzeBundles_render type_error_message analysis_view r
            = analysis_view analysis)
       ∨ (∃ msg : string,
            Render.analyzeBundles_render type_error_message analysis_view r
            = Returned
                (JsxElement "div"
                   [("className",
                     "relative overflow-hidden rounded-2xl bg-destructive/5 p-4")]
                   [JsxElement "div"
                      [("className", "flex items-center gap-3")]
                      [JsxElement "p"
                         [("className", "text-sm text-destructive")]
                         [JsxText "Error: "; JsxExpr (VString msg)]]]))).
Proof.
  unfold bundleTools.analyzeBundles_execute, bundleTools.analyzeBundles_try.
  destruct (analyzeMintBundles _) as [analysis|e] eqn:Haction; cbn [bind].
  - destruct (Js.truthy analysis) eqn:Htruthy; cbn [negb try_catch].
    + eexists. split; [reflexivity|]. left. exists analysis.
      split; [done|]. split; [done|].
      unfold Render.analyzeBundles_render. cbn. by rewrite Htruthy.
    + eexists. split; [reflexivity|]. right. by eexists.
  - cbn [try_catch]. caught_failure type_error_message.
    eexists. split; [reflexivity|]. right. by eexists.
Qed.

End RenderMore.

Lemma render_success_ignores_error_witness :
  Render.renderTelegramResponse (λ _, "[object Object]") "MISSING_USERNAME"
    "BOT_NOT_STARTED" (VBool true) (VString "MISSING_USERNAME")
    (VString "my_bot") "Done" ""
  = Render.renderTelegramResponse (λ _, "[object Object]") "MISSING_USERNAME"
      "BOT_NOT_STARTED" (VBool true) VUndefined VUndefined "Done" ""
  ∧ ∃ rest,
      Render.renderTelegramResponse (λ _, "[object Object]")
        "MISSING_USERNAME" "BOT_NOT_STARTED" (VBool true)
        (VString "MISSING_USERNAME") (VString "my_bot") "Done" ""
      = JsxElement "Card" [("className", "bg-card p-6")]
          [JsxElement "h2"
             [("className", "mb-1 text-xl font-semibold text-card-foreground")]
             [JsxExpr (VString "Done")];
           rest].
Proof.
  apply (render_success_ignores_error (λ _, "[object Object]")
           "MISSING_USERNAME" "BOT_NOT_STARTED" (VBool true)
           (VString "MISSING_USERNAME") (VString "my_bot") "Done" "").
  reflexivity.
Defined.
